(** * Coffee Factory: a shallow embedding of the business rules

    Decimal fields ([models.DecimalField]) are modelled as exact rationals
    [Q]: neither the 28-digit context of Python's [decimal] nor the
    [max_digits]/[decimal_places] of the database columns is modelled, so
    the properties below are about the exact arithmetic the code spells
    out; nullable fields as [option]; Python truthiness of a Decimal is
    "non-zero".  Database tables are finite maps or lists of records;
    operations that may raise return a sum type, and operations that write
    to the database pass the table explicitly. *)

From Stdlib Require Import QArith Qabs Qminmax ZArith List String Bool Lia Lqa.
From stdpp Require Import base gmap strings list fin_maps.
Import ListNotations.
Open Scope string_scope.
Open Scope Q_scope.
Set Warnings "-register-all".

(** ** Python helpers *)

(** Truthiness of a nullable Decimal: [None] and zero are falsy. *)
Definition truthy (o : option Q) : bool :=
  match o with
  | None => false
  | Some q => negb (Qeq_bool q 0)
  end.

(** [x or 0] on a nullable Decimal. *)
Definition or_zero (o : option Q) : Q :=
  match o with
  | Some t => if Qeq_bool t 0 then 0 else t
  | None => 0
  end.

(** Truthiness of a nullable foreign key: set or [None]. *)
Definition is_set {A} (o : option A) : bool :=
  match o with Some _ => true | None => false end.

(** Python [a < b] on Decimals. *)
Definition Qlt_bool (a b : Q) : bool := negb (Qle_bool b a).

(** Python [max(a, b)] returns [a] unless [b > a]. *)
Definition py_max (a b : Q) : Q := if Qlt_bool a b then b else a.

(** Python [min(a, b)] returns [a] unless [b < a]. *)
Definition py_min (a b : Q) : Q := if Qlt_bool b a then b else a.

(** The exceptions the modelled code raises: Django's [ValidationError],
    Python's [ValueError], [TypeError] and decimal's [ArithmeticError]
    family. *)
Inductive py_error :=
  | ValidationError (msg : string)
  | ValueError (msg : string)
  | TypeError (msg : string)
  | ArithmeticError (msg : string).

(** The call raised. *)
Definition is_error {A} (x : py_error + A) : bool :=
  match x with inl _ => true | inr _ => false end.

(** ** inventory/models.py *)
Module Inventory.

(** [StockMovement]: the fields the business rules read and write.
    [material] and [product] are nullable foreign keys (ids). *)
Record StockMovement := mkStockMovement {
  material : option Z;
  product : option Z;
  movement_type : string;
  quantity : Q;
  unit_cost : option Q;
  total_cost : option Q
}.

Definition set_quantity (m : StockMovement) (q : Q) : StockMovement :=
  mkStockMovement (material m) (product m) (movement_type m) q
    (unit_cost m) (total_cost m).

Definition set_total_cost (m : StockMovement) (t : option Q) : StockMovement :=
  mkStockMovement (material m) (product m) (movement_type m) (quantity m)
    (unit_cost m) t.

(** [StockMovement.clean]: either material or product, never both; the sign
    of [quantity] follows [movement_type]. *)
Definition clean (m : StockMovement) : py_error + StockMovement :=
  if negb (is_set (material m)) && negb (is_set (product m)) then
    inl (ValidationError "Deve ser especificado um material ou produto.")
  else if is_set (material m) && is_set (product m) then
    inl (ValidationError
      "Não é possível especificar material e produto ao mesmo tempo.")
  else if String.eqb (movement_type m) "out" && Qlt_bool 0 (quantity m) then
    inr (set_quantity m (- quantity m))
  else if String.eqb (movement_type m) "in" && Qlt_bool (quantity m) 0 then
    inr (set_quantity m (- quantity m))
  else inr m.

(** [StockMovement.save]: [clean], then the total cost, then the insert
    into the movement table [db] (the table is returned unchanged when
    [clean] raises). *)
Definition save (db : list StockMovement) (m : StockMovement)
    : (py_error + StockMovement) * list StockMovement :=
  match clean m with
  | inl e => (inl e, db)
  | inr m1 =>
      let m2 :=
        if truthy (unit_cost m1) && negb (truthy (total_cost m1)) then
          match unit_cost m1 with
          | Some uc => set_total_cost m1 (Some (Qabs (quantity m1) * uc))
          | None => m1
          end
        else m1 in
      (inr m2, (db ++ [m2])%list)
  end.

(** Django's [aggregate(total=Sum('quantity'))['total']]: SQL [SUM],
    [NULL] over no rows. *)
Definition aggregate_sum (qs : list Q) : option Q :=
  match qs with
  | [] => None
  | q :: rest => Some (fold_left Qplus rest q)
  end.

Definition Z_opt_eqb (o : option Z) (id : Z) : bool :=
  match o with Some x => Z.eqb x id | None => false end.

(** [material.stock_movements] / [product.stock_movements]: the reverse
    relations of the two foreign keys. *)
Definition material_movements (db : list StockMovement) (id : Z) :=
  List.filter (fun m => Z_opt_eqb (material m) id) db.

Definition product_movements (db : list StockMovement) (id : Z) :=
  List.filter (fun m => Z_opt_eqb (product m) id) db.

(** [Material.current_stock] *)
Definition material_current_stock (db : list StockMovement) (id : Z) : Q :=
  or_zero (aggregate_sum (map quantity (material_movements db id))).

(** [Product.current_stock] *)
Definition product_current_stock (db : list StockMovement) (id : Z) : Q :=
  or_zero (aggregate_sum (map quantity (product_movements db id))).

End Inventory.

(** ** sales/models.py *)
Module Sales.

(** [SalesOrderItem]: the pricing fields. *)
Record SalesOrderItem := mkSalesOrderItem {
  item_quantity : Q;
  item_unit_price : Q;
  item_discount_percentage : Q;
  item_discount_amount : Q;
  total_price : Q
}.

(** [SalesOrderItem.save]: the item discount is recomputed only when the
    item's percentage is positive; the total price always. *)
Definition item_save (it : SalesOrderItem) : SalesOrderItem :=
  let da :=
    if Qlt_bool 0 (item_discount_percentage it) then
      (item_quantity it * item_unit_price it * item_discount_percentage it) / 100
    else item_discount_amount it in
  let gross_amount := item_quantity it * item_unit_price it in
  mkSalesOrderItem (item_quantity it) (item_unit_price it)
    (item_discount_percentage it) da (gross_amount - da).

(** [SalesOrder]: the financial fields. *)
Record SalesOrder := mkSalesOrder {
  subtotal : Q;
  discount_percentage : Q;
  discount_amount : Q;
  tax_percentage : Q;
  tax_amount : Q;
  shipping_cost : Q;
  total_amount : Q
}.

(** Python's [sum(...)]: starts from the integer 0 and adds left to right. *)
Definition py_sum (xs : list Q) : Q := fold_left Qplus xs 0.

(** [SalesOrder.calculate_totals] over the order's items [order_items]. *)
Definition calculate_totals (so : SalesOrder) (order_items : list SalesOrderItem)
    : SalesOrder :=
  let st := py_sum (map total_price order_items) in
  let da :=
    if Qlt_bool 0 (discount_percentage so)
    then (st * discount_percentage so) / 100
    else discount_amount so in
  let net_amount := st - da in
  let ta :=
    if Qlt_bool 0 (tax_percentage so)
    then (net_amount * tax_percentage so) / 100
    else tax_amount so in
  mkSalesOrder st (discount_percentage so) da (tax_percentage so) ta
    (shipping_cost so) (net_amount + ta + shipping_cost so).

(** For [can_be_produced] and [create_production_orders]: an order item
    with its product's id and [code]. *)
Record ProductLine := mkProductLine {
  line_product : Z;
  line_product_code : string;
  line_quantity : Q
}.

(** A row of the [Recipe] table, in its [ordering = ['code']]. *)
Record RecipeRow := mkRecipeRow {
  recipe_id : Z;
  recipe_product : Z;
  recipe_status : string
}.

(** [SalesOrder.can_be_produced] against the movement table [db]. *)
Definition can_be_produced (db : list Inventory.StockMovement) (lines : list ProductLine)
    : bool :=
  forallb (fun item =>
    negb (Qlt_bool (Inventory.product_current_stock db (line_product item))
                   (line_quantity item))) lines.

(** [item.product.recipes.filter(status='active').first()] *)
Definition active_recipe (recipes : list RecipeRow) (product : Z) : option RecipeRow :=
  List.find (fun r => Z.eqb (recipe_product r) product
                      && String.eqb (recipe_status r) "active") recipes.

(** A created [ProductionOrder]: its unique [order_number], recipe and
    planned quantity. *)
Record CreatedOrder := mkCreatedOrder {
  co_order_number : string;
  co_recipe : Z;
  co_planned_quantity : Q
}.

(** The database refuses a second row with the same unique [order_number]. *)
Inductive db_error := IntegrityError (msg : string).

(** [ProductionOrder.objects.create(...)] on the table [pos]. *)
Definition create_order (pos : list CreatedOrder) (o : CreatedOrder)
    : (db_error + CreatedOrder) * list CreatedOrder :=
  if existsb (fun p => String.eqb (co_order_number p) (co_order_number o)) pos
  then (inl (IntegrityError "UNIQUE constraint failed: production_productionorder.order_number"), pos)
  else (inr o, (pos ++ [o])%list).

(** The loop of [SalesOrder.create_production_orders] for the order
    numbered [order_number]; [stock] is the movement table, [pos] the
    production order table.  Returns the created orders or the error, and
    the table afterwards (rows created before an error stay). *)
Fixpoint create_production_orders (stock : list Inventory.StockMovement)
    (recipes : list RecipeRow) (order_number : string) (lines : list ProductLine)
    (pos : list CreatedOrder) : (db_error + list CreatedOrder) * list CreatedOrder :=
  match lines with
  | [] => (inr [], pos)
  | item :: rest =>
      if Qlt_bool (Inventory.product_current_stock stock (line_product item))
                  (line_quantity item) then
        match active_recipe recipes (line_product item) with
        | Some r =>
            match create_order pos
                    (mkCreatedOrder ("OP-" ++ order_number ++ "-" ++ line_product_code item)
                       (recipe_id r) (line_quantity item)) with
            | (inl e, pos1) => (inl e, pos1)
            | (inr po, pos1) =>
                match create_production_orders stock recipes order_number rest pos1 with
                | (inl e, pos2) => (inl e, pos2)
                | (inr created, pos2) => (inr (po :: created), pos2)
                end
            end
        | None => create_production_orders stock recipes order_number rest pos
        end
      else create_production_orders stock recipes order_number rest pos
  end.

End Sales.

(** ** financial/models.py *)
Module Financial.

(** *** Python numbers in [Payroll.auto_calculate_taxes]

    The method mixes the model's Decimal fields with float literals.  A
    value carries its Python type: [int], [decimal.Decimal] or [float]
    (a float is represented by the rational it denotes). *)
Inductive pynum :=
  | PInt (z : Z)
  | PDec (q : Q)
  | PFloat (q : Q).

Definition val (x : pynum) : Q :=
  match x with PInt z => inject_Z z | PDec q => q | PFloat q => q end.

(** Binary arithmetic with Python's coercions: [int] mixes with both,
    [Decimal] and [float] do not mix ([TypeError]). *)
Definition py_arith (opz : Z -> Z -> Z) (opq : Q -> Q -> Q) (sym : string)
    (a b : pynum) : py_error + pynum :=
  match a, b with
  | PInt x, PInt y => inr (PInt (opz x y))
  | PInt x, PDec y => inr (PDec (opq (inject_Z x) y))
  | PDec x, PInt y => inr (PDec (opq x (inject_Z y)))
  | PInt x, PFloat y => inr (PFloat (opq (inject_Z x) y))
  | PFloat x, PInt y => inr (PFloat (opq x (inject_Z y)))
  | PDec x, PDec y => inr (PDec (opq x y))
  | PFloat x, PFloat y => inr (PFloat (opq x y))
  | PDec _, PFloat _ =>
      inl (TypeError ("unsupported operand type(s) for " ++ sym ++
                      ": 'decimal.Decimal' and 'float'"))
  | PFloat _, PDec _ =>
      inl (TypeError ("unsupported operand type(s) for " ++ sym ++
                      ": 'float' and 'decimal.Decimal'"))
  end.

Definition py_mul := py_arith Z.mul Qmult "*".
Definition py_sub := py_arith Z.sub Qminus "-".

(** Comparisons across the three types are defined on the values. *)
Definition py_le (a b : pynum) : bool := Qle_bool (val a) (val b).

Definition pmin (a b : pynum) : pynum := if Qlt_bool (val b) (val a) then b else a.
Definition pmax (a b : pynum) : pynum := if Qlt_bool (val a) (val b) then b else a.

Definition bind {A B} (x : py_error + A) (f : A -> py_error + B) : py_error + B :=
  match x with inl e => inl e | inr a => f a end.

Notation "'let!' x := c 'in' k" := (bind c (fun x => k))
  (at level 200, x name, c at level 100, k at level 200).

Definition flt (q : Q) : pynum := PFloat q.

(** [Payroll.auto_calculate_taxes] on [gross_salary]; returns
    [(inss_amount, irrf_amount)].  The float literals and float results
    are kept as exact rationals: binary rounding, and the overflow of a
    huge int converted to float, are not modelled. *)
Definition auto_calculate_taxes (gross_salary : pynum)
    : py_error + (pynum * pynum) :=
  let inss_rate :=
    if py_le gross_salary (PInt 1412) then flt (75 # 1000)
    else if py_le gross_salary (flt (266668 # 100)) then flt (9 # 100)
    else if py_le gross_salary (flt (400003 # 100)) then flt (12 # 100)
    else flt (14 # 100) in
  let! inss0 := py_mul gross_salary inss_rate in
  let inss_amount := pmin inss0 (flt (90885 # 100)) in
  let! taxable_income := py_sub gross_salary inss_amount in
  let! irrf0 :=
    (if py_le taxable_income (PInt 2112) then inr (PInt 0)
     else if py_le taxable_income (flt (282665 # 100)) then
       let! t := py_mul taxable_income (flt (75 # 1000)) in py_sub t (flt (15840 # 100))
     else if py_le taxable_income (flt (375105 # 100)) then
       let! t := py_mul taxable_income (flt (15 # 100)) in py_sub t (flt (37040 # 100))
     else if py_le taxable_income (flt (466468 # 100)) then
       let! t := py_mul taxable_income (flt (225 # 1000)) in py_sub t (flt (65173 # 100))
     else
       let! t := py_mul taxable_income (flt (275 # 1000)) in py_sub t (flt (88496 # 100))) in
  inr (inss_amount, pmax (PInt 0) irrf0).

(** *** [AccountsReceivable] and [AccountsPayable]

    The two models share their money fields and an identical
    [make_payment]; [kind] says which payment table a payment goes to. *)
Inductive ledger_kind := Receivable | Payable.

Record Ledger := mkLedger {
  original_amount : Q;
  paid_amount : Q;
  discount_amount : Q;
  interest_amount : Q;
  fine_amount : Q;
  status : string;
  payment_date : option Z;
  payment_method : string;
  reference_number : string
}.

(** The [total_amount] property. *)
Definition total_amount (l : Ledger) : Q :=
  original_amount l + interest_amount l + fine_amount l - discount_amount l.

(** A row of [AccountsReceivablePayment] / [AccountsPayablePayment]. *)
Record Payment := mkPayment {
  pay_kind : ledger_kind;
  pay_account : Z;
  pay_amount : Q;
  pay_date : Z;
  pay_method : string;
  pay_reference : string
}.

(** The payment model [objects.create] builds for [kind]. *)
Definition payment_model_name (kind : ledger_kind) : string :=
  match kind with
  | Receivable => "AccountsReceivablePayment"
  | Payable => "AccountsPayablePayment"
  end.

(** The payment's foreign key to its account. *)
Definition payment_account_field (kind : ledger_kind) : string :=
  match kind with Receivable => "receivable" | Payable => "payable" end.

(** The names a payment model accepts as keyword arguments: the fields of
    [BaseModel] ([id], [created_at], [updated_at], [is_active]), the
    model's own fields (the foreign key also under its [_id] attname), and
    the [pk] property.  [BaseModel] has no [created_by]: that field belongs
    to [AuditModel]. *)
Definition payment_fields (kind : ledger_kind) : list string :=
  ["id"; "created_at"; "updated_at"; "is_active"; "pk";
   payment_account_field kind; payment_account_field kind ++ "_id";
   "amount"; "payment_date"; "payment_method"; "reference_number"; "notes"].

(** Python's [', '.join(repr(n) for n in names)] for plain names. *)
Fixpoint join_reprs (names : list string) : string :=
  match names with
  | [] => ""
  | [n] => "'" ++ n ++ "'"
  | n :: rest => "'" ++ n ++ "', " ++ join_reprs rest
  end.

(** [Model.__init__] with keyword arguments, for a payment model: the keyword arguments
    that name neither a field nor a property make it raise [TypeError]
    before anything is saved. *)
Definition payment_init (kind : ledger_kind) (kwargs : list string) : option py_error :=
  match filter (fun k => negb (existsb (String.eqb k) (payment_fields kind))) kwargs with
  | [] => None
  | unexpected =>
      Some (TypeError (payment_model_name kind ++
              "() got unexpected keyword arguments: " ++ join_reprs unexpected))
  end.

(** The keyword arguments [make_payment] passes to
    [AccountsReceivablePayment.objects.create] /
    [AccountsPayablePayment.objects.create]. *)
Definition make_payment_kwargs (kind : ledger_kind) : list string :=
  [payment_account_field kind; "amount"; "payment_date"; "payment_method";
   "reference_number"; "created_by"].

(** [make_payment(amount, payment_method, reference_number, payment_date)]
    on the account [id] with fields [l]; [today] is
    [timezone.now().date()].  Returns the payment or the error, the
    account's fields afterwards, and the payment table afterwards.
    [objects.create] first builds the model instance
    ([payment_init]) and then inserts it; the account is updated after
    that. *)
Definition make_payment (kind : ledger_kind) (id : Z) (l : Ledger)
    (payments : list Payment) (amount : Q) (method reference : string)
    (pdate : option Z) (today : Z)
    : (py_error + Payment) * Ledger * list Payment :=
  let pd := match pdate with None => today | Some d => d end in
  if Qle_bool amount 0 then
    (inl (ValueError "Payment amount must be positive"), l, payments)
  else if Qlt_bool (total_amount l) (paid_amount l + amount) then
    (inl (ValueError "Payment amount exceeds total amount"), l, payments)
  else
    match payment_init kind (make_payment_kwargs kind) with
    | Some e => (inl e, l, payments)
    | None =>
    let payment := mkPayment kind id amount pd method reference in
    let paid := paid_amount l + amount in
    let l1 := mkLedger (original_amount l) paid (discount_amount l)
                (interest_amount l) (fine_amount l) (status l)
                (payment_date l) (payment_method l) (reference_number l) in
    let l2 :=
      if Qle_bool (total_amount l1) paid then
        mkLedger (original_amount l) paid (discount_amount l)
          (interest_amount l) (fine_amount l) "paid" (Some pd)
          (payment_method l) (reference_number l)
      else if Qlt_bool 0 paid then
        mkLedger (original_amount l) paid (discount_amount l)
          (interest_amount l) (fine_amount l) "partially_paid"
          (payment_date l) (payment_method l) (reference_number l)
      else l1 in
    let l3 :=
      mkLedger (original_amount l2) (paid_amount l2) (discount_amount l2)
        (interest_amount l2) (fine_amount l2) (status l2) (payment_date l2)
        method
        (if String.eqb reference "" then reference_number l2 else reference) in
    (inr payment, l3, (payments ++ [payment])%list)
    end.

(** The [is_overdue] property; [today] and the [due_date] field are day
    numbers. *)
Definition is_overdue (today due_date : Z) (l : Ledger) : bool :=
  Z.ltb due_date today &&
  (String.eqb (status l) "pending" || String.eqb (status l) "partially_paid").

(** The [days_overdue] property. *)
Definition days_overdue (today due_date : Z) (l : Ledger) : Z :=
  if is_overdue today due_date l then (today - due_date)%Z else 0%Z.

End Financial.

(** ** financial/models.py: [Payroll], and its admin action (financial/admin.py) *)
Module Payrolls.
Import Financial.

(** The money fields of [Payroll].  [gross_salary], [inss_amount] and
    [irrf_amount] carry their Python type: a row loaded from the database
    holds Decimals, [auto_calculate_taxes] may leave floats or ints. *)
Record Payroll := mkPayroll {
  base_salary : Q;
  overtime_hours : Q;
  overtime_amount : Q;
  bonus_amount : Q;
  commission_amount : Q;
  other_earnings : Q;
  gross_salary : pynum;
  inss_amount : pynum;
  irrf_amount : pynum;
  health_insurance : Q;
  dental_insurance : Q;
  meal_voucher_discount : Q;
  transport_voucher_discount : Q;
  union_dues : Q;
  other_deductions : Q;
  total_deductions : Q;
  net_salary : Q;
  payroll_status : string
}.

Definition set_overtime_amount (p : Payroll) (x : Q) : Payroll :=
  mkPayroll (base_salary p) (overtime_hours p) x (bonus_amount p)
    (commission_amount p) (other_earnings p) (gross_salary p) (inss_amount p)
    (irrf_amount p) (health_insurance p) (dental_insurance p)
    (meal_voucher_discount p) (transport_voucher_discount p) (union_dues p)
    (other_deductions p) (total_deductions p) (net_salary p) (payroll_status p).

Definition set_gross_salary (p : Payroll) (x : pynum) : Payroll :=
  mkPayroll (base_salary p) (overtime_hours p) (overtime_amount p) (bonus_amount p)
    (commission_amount p) (other_earnings p) x (inss_amount p)
    (irrf_amount p) (health_insurance p) (dental_insurance p)
    (meal_voucher_discount p) (transport_voucher_discount p) (union_dues p)
    (other_deductions p) (total_deductions p) (net_salary p) (payroll_status p).

Definition set_taxes (p : Payroll) (inss irrf : pynum) : Payroll :=
  mkPayroll (base_salary p) (overtime_hours p) (overtime_amount p) (bonus_amount p)
    (commission_amount p) (other_earnings p) (gross_salary p) inss
    irrf (health_insurance p) (dental_insurance p)
    (meal_voucher_discount p) (transport_voucher_discount p) (union_dues p)
    (other_deductions p) (total_deductions p) (net_salary p) (payroll_status p).

Definition set_total_deductions (p : Payroll) (x : Q) : Payroll :=
  mkPayroll (base_salary p) (overtime_hours p) (overtime_amount p) (bonus_amount p)
    (commission_amount p) (other_earnings p) (gross_salary p) (inss_amount p)
    (irrf_amount p) (health_insurance p) (dental_insurance p)
    (meal_voucher_discount p) (transport_voucher_discount p) (union_dues p)
    (other_deductions p) x (net_salary p) (payroll_status p).

Definition set_net_salary (p : Payroll) (x : Q) : Payroll :=
  mkPayroll (base_salary p) (overtime_hours p) (overtime_amount p) (bonus_amount p)
    (commission_amount p) (other_earnings p) (gross_salary p) (inss_amount p)
    (irrf_amount p) (health_insurance p) (dental_insurance p)
    (meal_voucher_discount p) (transport_voucher_discount p) (union_dues p)
    (other_deductions p) (total_deductions p) x (payroll_status p).

Definition set_payroll_status (p : Payroll) (s : string) : Payroll :=
  mkPayroll (base_salary p) (overtime_hours p) (overtime_amount p) (bonus_amount p)
    (commission_amount p) (other_earnings p) (gross_salary p) (inss_amount p)
    (irrf_amount p) (health_insurance p) (dental_insurance p)
    (meal_voucher_discount p) (transport_voucher_discount p) (union_dues p)
    (other_deductions p) (total_deductions p) (net_salary p) s.

(** [Decimal(str(x or 0))] on a number: its value (a float is taken at the
    rational it denotes). *)
Definition to_decimal (x : pynum) : Q := val x.

(** [calculate_gross_salary] *)
Definition calculate_gross_salary (p : Payroll) : Payroll :=
  set_gross_salary p (PDec (base_salary p + overtime_amount p + bonus_amount p
                            + commission_amount p + other_earnings p)).

(** [calculate_deductions] *)
Definition calculate_deductions (p : Payroll) : Payroll :=
  set_total_deductions p
    (to_decimal (inss_amount p) + to_decimal (irrf_amount p) + health_insurance p
     + dental_insurance p + meal_voucher_discount p
     + transport_voucher_discount p + union_dues p + other_deductions p).

(** [calculate_net_salary] *)
Definition calculate_net_salary (p : Payroll) : Payroll :=
  let p1 := calculate_deductions (calculate_gross_salary p) in
  set_net_salary p1 (val (gross_salary p1) - total_deductions p1).

(** [calculate_overtime(hourly_rate)] with the default multiplier
    [Decimal(str(1.5))]. *)
Definition calculate_overtime (hourly_rate : option Q) (p : Payroll) : Payroll :=
  let rate :=
    if negb (truthy hourly_rate) && Qlt_bool 0 (base_salary p)
    then Some (base_salary p / 220) else hourly_rate in
  if truthy rate && Qlt_bool 0 (overtime_hours p) then
    match rate with
    | Some r => set_overtime_amount p (overtime_hours p * r * (15 # 10))
    | None => p
    end
  else p.

(** [process_payroll]: the row it saves, or the exception it raises
    before saving. *)
Definition process_payroll (p : Payroll) : py_error + Payroll :=
  let p1 := if Qlt_bool 0 (overtime_hours p) then calculate_overtime None p else p in
  match auto_calculate_taxes (gross_salary p1) with
  | inl e => inl e
  | inr (inss, irrf) =>
      inr (set_payroll_status (calculate_net_salary (set_taxes p1 inss irrf)) "calculated")
  end.

(** [PayrollAdmin.process_payrolls] over the selected rows: the loop stops
    at the first exception.  Returns the count or the exception, and the
    rows saved so far. *)
Fixpoint process_payrolls (queryset : list Payroll)
    : (py_error + nat) * list Payroll :=
  match queryset with
  | [] => (inr 0%nat, [])
  | p :: rest =>
      match process_payroll p with
      | inl e => (inl e, [])
      | inr p' =>
          match process_payrolls rest with
          | (inl e, saved) => (inl e, p' :: saved)
          | (inr n, saved) => (inr (S n), p' :: saved)
          end
      end
  end.

End Payrolls.

(** ** Field validators and form [clean()] methods *)
Module Validation.

(** Django's validators declared on the numeric fields of the models.  The
    [DecimalValidator(max_digits, decimal_places)] Django adds to every
    [DecimalField] is not modelled; it can only reject more values. *)
Inductive validator := MinValueValidator (limit_value : Q).

(** [MinValueValidator.__call__]: raises when [value < limit_value]. *)
Definition run_validator (v : validator) (value : Q) : option py_error :=
  match v with
  | MinValueValidator lim =>
      if Qlt_bool value lim
      then Some (ValidationError "Ensure this value is greater than or equal to the limit.")
      else None
  end.

(** [Field.run_validators]: every validator runs, the errors are collected. *)
Definition run_validators (vs : list validator) (value : Q) : list py_error :=
  flat_map (fun v => match run_validator v value with
                     | Some e => [e] | None => [] end) vs.

(** Every field of the models that declares [validators=[...]] on a number,
    as (model, field, validators), in source order. *)
Definition field_validators : list (string * string * list validator) := [
    ("Customer", "credit_limit", [MinValueValidator 0]);
    ("Customer", "discount_percentage", [MinValueValidator 0; MinValueValidator 100]);
    ("SalesOrder", "discount_percentage", [MinValueValidator 0; MinValueValidator 100]);
    ("SalesOrder", "tax_percentage", [MinValueValidator 0]);
    ("SalesOrder", "shipping_cost", [MinValueValidator 0]);
    ("SalesOrder", "paid_amount", [MinValueValidator 0]);
    ("SalesOrderItem", "quantity", [MinValueValidator (1 # 1000)]);
    ("SalesOrderItem", "unit_price", [MinValueValidator (1 # 100)]);
    ("SalesOrderItem", "discount_percentage", [MinValueValidator 0; MinValueValidator 100]);
    ("SalesOrderItem", "delivered_quantity", [MinValueValidator 0]);
    ("AccountsReceivable", "original_amount", [MinValueValidator (1 # 100)]);
    ("AccountsReceivable", "paid_amount", [MinValueValidator 0]);
    ("AccountsReceivable", "discount_amount", [MinValueValidator 0]);
    ("AccountsReceivable", "interest_amount", [MinValueValidator 0]);
    ("AccountsReceivable", "fine_amount", [MinValueValidator 0]);
    ("AccountsReceivablePayment", "amount", [MinValueValidator (1 # 100)]);
    ("AccountsPayable", "original_amount", [MinValueValidator (1 # 100)]);
    ("AccountsPayable", "paid_amount", [MinValueValidator 0]);
    ("AccountsPayable", "discount_amount", [MinValueValidator 0]);
    ("AccountsPayable", "interest_amount", [MinValueValidator 0]);
    ("AccountsPayable", "fine_amount", [MinValueValidator 0]);
    ("AccountsPayablePayment", "amount", [MinValueValidator (1 # 100)]);
    ("Payroll", "days_worked", [MinValueValidator 0]);
    ("Payroll", "hours_worked", [MinValueValidator 0]);
    ("Payroll", "overtime_hours", [MinValueValidator 0]);
    ("Payroll", "base_salary", [MinValueValidator 0]);
    ("Payroll", "overtime_amount", [MinValueValidator 0]);
    ("Payroll", "bonus_amount", [MinValueValidator 0]);
    ("Payroll", "commission_amount", [MinValueValidator 0]);
    ("Payroll", "other_earnings", [MinValueValidator 0]);
    ("Payroll", "inss_amount", [MinValueValidator 0]);
    ("Payroll", "irrf_amount", [MinValueValidator 0]);
    ("Payroll", "health_insurance", [MinValueValidator 0]);
    ("Payroll", "dental_insurance", [MinValueValidator 0]);
    ("Payroll", "meal_voucher_discount", [MinValueValidator 0]);
    ("Payroll", "transport_voucher_discount", [MinValueValidator 0]);
    ("Payroll", "union_dues", [MinValueValidator 0]);
    ("Payroll", "other_deductions", [MinValueValidator 0]);
    ("Material", "cost_per_unit", [MinValueValidator (1 # 100)]);
    ("Material", "minimum_stock", [MinValueValidator 0]);
    ("Material", "maximum_stock", [MinValueValidator 0]);
    ("Product", "cost_per_unit", [MinValueValidator (1 # 100)]);
    ("Product", "sale_price", [MinValueValidator (1 # 100)]);
    ("Product", "minimum_stock", [MinValueValidator 0]);
    ("Product", "maximum_stock", [MinValueValidator 0]);
    ("Product", "weight", [MinValueValidator 0]);
    ("Recipe", "yield_quantity", [MinValueValidator (1 # 1000)]);
    ("RecipeItem", "quantity", [MinValueValidator (1 # 1000)]);
    ("ProductionOrder", "planned_quantity", [MinValueValidator (1 # 1000)]);
    ("ProductionOrder", "produced_quantity", [MinValueValidator 0]);
    ("ProductionOrderItem", "planned_quantity", [MinValueValidator (1 # 1000)]);
    ("ProductionOrderItem", "consumed_quantity", [MinValueValidator 0])
  ].

(** Dates are day numbers; a [cleaned_data.get] that is absent is [None]. *)
Definition date := Z.

(** [AccountsReceivableForm.clean] *)
Definition receivable_form_clean (issue_date due_date : option date)
    : py_error + unit :=
  match issue_date, due_date with
  | Some i, Some d =>
      if Z.ltb d i then
        inl (ValidationError "A data de vencimento deve ser posterior à data de emissão.")
      else inr tt
  | _, _ => inr tt
  end.

(** [AccountsPayableForm.clean] *)
Definition payable_form_clean (invoice_date due_date : option date)
    : py_error + unit :=
  match invoice_date, due_date with
  | Some i, Some d =>
      if Z.ltb d i then
        inl (ValidationError "A data de vencimento deve ser posterior à data da fatura.")
      else inr tt
  | _, _ => inr tt
  end.

(** Some validator of the list has a non-negative lower bound. *)
Definition has_nonneg_min (vs : list validator) : bool :=
  existsb (fun v => match v with MinValueValidator lim => Qle_bool 0 lim end) vs.

End Validation.

(** ** production/models.py *)
Module Production.
Import Inventory.

Record Material := mkMaterial {
  mat_id : Z;
  cost_per_unit : Q
}.

Record RecipeItem := mkRecipeItem {
  ri_material : Material;
  ri_quantity : Q
}.

Record Recipe := mkRecipe {
  yield_quantity : Q;
  recipe_items : list RecipeItem
}.

Record ProductionOrder := mkProductionOrder {
  recipe : Recipe;
  planned_quantity : Q;
  order_number : string
}.

(** One entry of [materials_needed]. *)
Record MaterialNeed := mkMaterialNeed {
  need_material : Material;
  quantity_needed : Q;
  available_stock : Q;
  shortage : Q
}.

Definition ZeroDivision : py_error := ArithmeticError "decimal.DivisionByZero".

(** [planned_quantity / recipe.yield_quantity]; Decimal division by zero
    raises. *)
Definition multiplier (po : ProductionOrder) : py_error + Q :=
  if Qeq_bool (yield_quantity (recipe po)) 0 then inl ZeroDivision
  else inr (planned_quantity po / yield_quantity (recipe po)).

(** The [materials_needed] property, against the movement table [db]. *)
Definition materials_needed (db : list StockMovement) (po : ProductionOrder)
    : py_error + list MaterialNeed :=
  match multiplier po with
  | inl e => inl e
  | inr mult =>
      inr (map (fun item =>
        mkMaterialNeed (ri_material item) (ri_quantity item * mult)
          (material_current_stock db (mat_id (ri_material item)))
          (py_max 0 (ri_quantity item * mult
                     - material_current_stock db (mat_id (ri_material item)))))
        (recipe_items (recipe po)))
  end.

(** [can_start_production]: every shortage equals 0. *)
Definition can_start_production (db : list StockMovement) (po : ProductionOrder)
    : py_error + bool :=
  match materials_needed db po with
  | inl e => inl e
  | inr ns => inr (forallb (fun n => Qeq_bool (shortage n) 0) ns)
  end.

(** The movement [StockMovement.objects.create(...)] builds for one item. *)
Definition reservation (mult : Q) (item : RecipeItem) : StockMovement :=
  mkStockMovement (Some (mat_id (ri_material item))) None "out"
    (- (ri_quantity item * mult)) (Some (cost_per_unit (ri_material item))) None.

(** The loop of [reserve_materials]: one [create] (that is, [save]) per
    recipe item, in order. *)
Fixpoint create_all (db : list StockMovement) (mult : Q) (items : list RecipeItem)
    : (py_error + unit) * list StockMovement :=
  match items with
  | [] => (inr tt, db)
  | item :: rest =>
      match save db (reservation mult item) with
      | (inl e, db1) => (inl e, db1)
      | (inr _, db1) => create_all db1 mult rest
      end
  end.

(** [reserve_materials] *)
Definition reserve_materials (db : list StockMovement) (po : ProductionOrder)
    : (py_error + unit) * list StockMovement :=
  match can_start_production db po with
  | inl e => (inl e, db)
  | inr false => (inl (ValueError "Insufficient materials to start production"), db)
  | inr true =>
      match multiplier po with
      | inl e => (inl e, db)
      | inr mult => create_all db mult (recipe_items (recipe po))
      end
  end.


(** The progress fields of a [ProductionOrder]. *)
Record OrderProgress := mkOrderProgress {
  produced_quantity : Q;
  progress_status : string;
  actual_end_date : option Z
}.

(** [ProductionOrder.completion_percentage] *)
Definition completion_percentage (po : ProductionOrder) (pr : OrderProgress) : Q :=
  if Qlt_bool 0 (planned_quantity po) then
    py_min ((produced_quantity pr / planned_quantity po) * 100) 100
  else 0.

(** [ProductionOrderItem]: the quantity and cost fields. *)
Record ProductionOrderItem := mkProductionOrderItem {
  item_planned_quantity : Q;
  consumed_quantity : Q;
  item_unit_cost : Q
}.

Definition total_planned_cost (i : ProductionOrderItem) : Q :=
  item_planned_quantity i * item_unit_cost i.

Definition total_actual_cost (i : ProductionOrderItem) : Q :=
  consumed_quantity i * item_unit_cost i.

Definition variance_quantity (i : ProductionOrderItem) : Q :=
  consumed_quantity i - item_planned_quantity i.

Definition variance_cost (i : ProductionOrderItem) : Q :=
  total_actual_cost i - total_planned_cost i.

End Production.

(** ** api/exceptions.py and the API's view outcomes *)
Module Api.

(** JSON-like response bodies ([response.data]). *)
Inductive json :=
  | JNull
  | JStr (s : string)
  | JNum (q : Q)
  | JList (xs : list json)
  | JDict (kvs : list (string * json)).

Record Response := mkResponse {
  status_code : Z;
  data : json
}.

(** [get_error_code] *)
Definition error_codes : list (Z * string) := [
    (400%Z, "validation_error");
    (401%Z, "authentication_required");
    (403%Z, "permission_denied");
    (404%Z, "not_found");
    (405%Z, "method_not_allowed");
    (406%Z, "not_acceptable");
    (409%Z, "conflict");
    (422%Z, "unprocessable_entity");
    (429%Z, "too_many_requests");
    (500%Z, "internal_server_error");
    (502%Z, "bad_gateway");
    (503%Z, "service_unavailable")
  ].

Fixpoint dict_get {V} (kvs : list (Z * V)) (k : Z) (default : V) : V :=
  match kvs with
  | [] => default
  | (k', v) :: rest => if Z.eqb k k' then v else dict_get rest k default
  end.

Definition get_error_code (status_code : Z) : string :=
  dict_get error_codes status_code "unknown_error".

Fixpoint jlookup (kvs : list (string * json)) (k : string) : option json :=
  match kvs with
  | [] => None
  | (k', v) :: rest => if String.eqb k k' then Some v else jlookup rest k
  end.

(** [dict.pop(k, None)] *)
Definition jpop (kvs : list (string * json)) (k : string) : list (string * json) :=
  List.filter (fun kv => negb (String.eqb (fst kv) k)) kvs.

Section Handler.

(** The exception type, Python's [str()] on response data, and DRF's
    [rest_framework.views.exception_handler] (library code: [None] for an
    exception it does not recognise). *)
Variable exc ctx : Type.
Variable py_str : json -> string.
Variable exception_handler : exc -> ctx -> option Response.

(** [get_error_message] *)
Definition get_error_message (status_code : Z) (original_data : json) : string :=
  if Z.eqb status_code 400 then "Dados inválidos fornecidos"
  else if Z.eqb status_code 401 then "Autenticação necessária"
  else if Z.eqb status_code 403 then "Permissão negada"
  else if Z.eqb status_code 404 then "Recurso não encontrado"
  else if Z.eqb status_code 405 then "Método não permitido"
  else if Z.eqb status_code 409 then "Conflito de dados"
  else if Z.eqb status_code 422 then "Entidade não processável"
  else if Z.eqb status_code 429 then "Muitas requisições"
  else if Z.leb 500 status_code then "Erro interno do servidor"
  else
    match original_data with
    | JDict kvs =>
        match jlookup kvs "detail", jlookup kvs "message" with
        | Some d, _ => py_str d
        | None, Some m => py_str m
        | None, None => "Erro desconhecido"
        end
    | _ => "Erro desconhecido"
    end.

(** [format_error_details] *)
Definition format_error_details (original_data : json) : json :=
  match original_data with
  | JDict kvs => JDict (jpop (jpop kvs "detail") "message")
  | JList xs => JDict [("errors", JList xs)]
  | other => JDict [("raw", JStr (py_str other))]
  end.

(** The envelope [{error: {code, message, details}}]. *)
Definition envelope (code message : string) (details : json) : json :=
  JDict [("error", JDict [("code", JStr code); ("message", JStr message);
                          ("details", details)])].

(** [custom_exception_handler] *)
Definition custom_exception_handler (e : exc) (c : ctx) : option Response :=
  match exception_handler e c with
  | None => None
  | Some response =>
      let error_code := get_error_code (status_code response) in
      let original_data := data response in
      Some (mkResponse (status_code response)
              (envelope error_code
                 (get_error_message (status_code response) original_data)
                 (format_error_details original_data)))
  end.

(** What a DRF view produces: it raises, or it returns a [Response]. *)
Inductive outcome :=
  | Raised (e : exc)
  | Returned (r : Response).

(** DRF's [APIView.dispatch]: the configured handler sees raised
    exceptions only; a returned response goes out as it is. *)
Definition dispatch (c : ctx) (o : outcome) : option Response :=
  match o with
  | Raised e => custom_exception_handler e c
  | Returned r => Some r
  end.

(** The body is the fixed envelope. *)
Definition is_envelope (j : json) : Prop :=
  exists code message details, j = envelope code message details.

(** [ProductionOrderViewSet.start_production]: [po_status] is the order's
    status.  [ProductionOrder] defines no [start_production] method, so on
    a pending order the call [production_order.start_production()] raises
    [AttributeError] ([attribute_error]), which the [except ValueError]
    clause does not catch. *)
Variable PO : Type.
Variable po_status : PO -> string.
Variable attribute_error : exc.

Definition start_production_action (po : PO) : outcome :=
  if negb (String.eqb (po_status po) "pending") then
    Returned (mkResponse 400
      (JDict [("error", JStr "Production order must be in pending status to start")]))
  else Raised attribute_error.

End Handler.

End Api.

(** ** The delete views (suppliers/, accounts/, inventory/views.py) *)
Module Views.

(** A row of a [BaseModel] table: [is_active], the [auto_now] timestamp
    [updated_at], and the remaining columns as name/value pairs. *)
Record row := mkRow {
  is_active : bool;
  updated_at : Z;
  columns : list (string * string)
}.

(** A row of [accounts.User] (its own [is_active], [is_employee] and
    [auto_now] [updated_at]). *)
Record user_row := mkUserRow {
  u_is_active : bool;
  u_is_employee : bool;
  u_updated_at : Z;
  u_columns : list (string * string)
}.

(** The tables the delete views touch, keyed by primary key:
    [material_supplier] is [Material.supplier] ([on_delete=SET_NULL]) and
    [payable_supplier] is [AccountsPayable.supplier] ([on_delete=PROTECT]). *)
Record db := mkDb {
  categories : gmap Z row;
  suppliers : gmap Z row;
  employees : gmap Z row;
  employee_user : gmap Z Z;
  users : gmap Z user_row;
  material_supplier : gmap Z (option Z);
  payable_supplier : gmap Z Z
}.

Definition set_categories (d : db) m :=
  mkDb m (suppliers d) (employees d) (employee_user d) (users d) (material_supplier d)
    (payable_supplier d).
Definition set_suppliers (d : db) m :=
  mkDb (categories d) m (employees d) (employee_user d) (users d) (material_supplier d)
    (payable_supplier d).
Definition set_employees (d : db) m :=
  mkDb (categories d) (suppliers d) m (employee_user d) (users d) (material_supplier d)
    (payable_supplier d).
Definition set_users (d : db) m :=
  mkDb (categories d) (suppliers d) (employees d) (employee_user d) m (material_supplier d)
    (payable_supplier d).
Definition set_material_supplier (d : db) m :=
  mkDb (categories d) (suppliers d) (employees d) (employee_user d) (users d) m
    (payable_supplier d).

(** [obj.is_active = False] *)
Definition deactivate (r : row) : row := mkRow false (updated_at r) (columns r).

(** [Model.save()] on an existing row at time [now]: [auto_now] refreshes
    [updated_at]. *)
Definition save_row (now : Z) (r : row) : row := mkRow (is_active r) now (columns r).

Definition save_user (now : Z) (u : user_row) : user_row :=
  mkUserRow (u_is_active u) (u_is_employee u) now (u_columns u).

(** Outcome of a view: the redirect after success, [Http404] from
    [get_object()], [DoesNotExist] from a dangling related object, or
    [ProtectedError] from a deletion a [PROTECT] foreign key refuses. *)
Inductive view_result := Redirect | Http404 | DoesNotExist | ProtectedError.

(** [CategoryDeleteView.delete], the view's [delete()] handler. *)
Definition category_delete (now : Z) (pk : Z) (d : db) : view_result * db :=
  match categories d !! pk with
  | None => (Http404, d)
  | Some obj =>
      (Redirect, set_categories d (<[pk := save_row now (deactivate obj)]> (categories d)))
  end.

(** [supplier.materials.exists()] *)
Definition has_materials (d : db) (pk : Z) : bool :=
  bool_decide (map_Exists (fun _ s => s = Some pk) (material_supplier d)).

(** Some [AccountsPayable] row references the supplier. *)
Definition has_payables (d : db) (pk : Z) : bool :=
  bool_decide (map_Exists (fun _ s => s = pk) (payable_supplier d)).

(** [supplier.delete()]: Django's deletion collector raises
    [ProtectedError], deleting nothing, when an [AccountsPayable] row
    references the supplier ([on_delete=PROTECT]); otherwise the row is
    removed and the materials naming it get [supplier = NULL]
    ([on_delete=SET_NULL]). *)
Definition supplier_obj_delete (pk : Z) (d : db) : view_result * db :=
  if has_payables d pk then (ProtectedError, d)
  else
    (Redirect,
     set_material_supplier (set_suppliers d (delete pk (suppliers d)))
       ((fun s => if decide (s = Some pk) then None else s) <$> material_supplier d)).

(** [SupplierDeleteView.delete], the view's [delete()] handler. *)
Definition supplier_delete (now : Z) (pk : Z) (d : db) : view_result * db :=
  match suppliers d !! pk with
  | None => (Http404, d)
  | Some supplier =>
      if has_materials d pk then
        (Redirect, set_suppliers d (<[pk := save_row now (deactivate supplier)]> (suppliers d)))
      else supplier_obj_delete pk d
  end.




(** [Employee.save]: marks the user as an employee first (saving the user),
    then saves the employee row. *)
Definition employee_save (now : Z) (pk : Z) (e : row) (d : db) : db :=
  let d1 :=
    match employee_user d !! pk with
    | Some uid =>
        match users d !! uid with
        | Some u =>
            if u_is_employee u then d
            else set_users d (<[uid := save_user now
                     (mkUserRow (u_is_active u) true (u_updated_at u) (u_columns u))]>
                     (users d))
        | None => d
        end
    | None => d
    end in
  set_employees d1 (<[pk := save_row now e]> (employees d1)).

(** [EmployeeDeleteView.delete], the view's [delete()] handler: the
    employee and its user are deactivated, the employee saved, then the
    user saved.  The handler is what an HTTP DELETE request runs, and what
    a POST runs before Django 4.0 (as for the other delete views). *)
Definition employee_delete (now : Z) (pk : Z) (d : db) : view_result * db :=
  match employees d !! pk, employee_user d !! pk with
  | Some employee, Some uid =>
      match users d !! uid with
      | Some u =>
          let u' := mkUserRow false (u_is_employee u) (u_updated_at u) (u_columns u) in
          let d0 := set_users d (<[uid := u']> (users d)) in
          let d1 := employee_save now pk (deactivate employee) d0 in
          let d2 :=
            match users d1 !! uid with
            | Some u1 => set_users d1 (<[uid := save_user now u1]> (users d1))
            | None => d1
            end in
          (Redirect, d2)
      | None => (DoesNotExist, d)
      end
  | Some _, None => (DoesNotExist, d)
  | None, _ => (Http404, d)
  end.

(** A small database: one category, one supplier without materials or
    payables, one employee and its user. *)
Definition sample_db : db :=
  mkDb {[ 1%Z := mkRow true 0 [("name", "Grãos")] ]}
       {[ 1%Z := mkRow true 0 [("name", "Fazenda Boa Vista")] ]}
       {[ 1%Z := mkRow true 0 [("employee_id", "E001")] ]}
       {[ 1%Z := 5%Z ]}
       {[ 5%Z := mkUserRow true true 0 [("username", "ana")] ]}
       ∅ ∅.

End Views.

(** * Properties *)

(** ** Inventory *)
Module InventoryFacts.
Import Inventory.

Lemma Qlt_bool_iff (a b : Q) : Qlt_bool a b = true <-> a < b.
Proof.
  unfold Qlt_bool. rewrite negb_true_iff. split; intro H.
  - apply Qnot_le_lt. intro H'. apply Qle_bool_iff in H'. congruence.
  - destruct (Qle_bool b a) eqn:E; [|reflexivity].
    apply Qle_bool_iff in E. exfalso. apply (Qlt_not_le a b); assumption.
Qed.

Lemma Qlt_bool_false (a b : Q) : Qlt_bool a b = false <-> b <= a.
Proof.
  unfold Qlt_bool. rewrite negb_false_iff. apply Qle_bool_iff.
Qed.

Lemma fold_left_Qplus (l : list Q) (a : Q) :
  fold_left Qplus l a == a + fold_right Qplus 0 l.
Proof.
  revert a. induction l as [|x l IH]; intro a; simpl.
  - ring.
  - rewrite IH. ring.
Qed.

Lemma or_zero_aggregate_sum (qs : list Q) :
  or_zero (aggregate_sum qs) == fold_right Qplus 0 qs.
Proof.
  destruct qs as [|q rest]; simpl; [reflexivity|].
  destruct (Qeq_bool (fold_left Qplus rest q) 0) eqn:E.
  - apply Qeq_bool_eq in E. rewrite fold_left_Qplus in E. symmetry. exact E.
  - rewrite fold_left_Qplus. reflexivity.
Qed.

(** Claim C1: the [current_stock] of a material and of a product is the sum
    of the signed [quantity] of its stock movements, and 0 when it has none. *)
Theorem current_stock_is_movement_sum :
  forall (d : list StockMovement) (id : Z),
    material_current_stock d id == fold_right Qplus 0 (map quantity (material_movements d id)) /\
    (material_movements d id = [] -> material_current_stock d id = 0) /\
    product_current_stock d id == fold_right Qplus 0 (map quantity (product_movements d id)) /\
    (product_movements d id = [] -> product_current_stock d id = 0).
Proof.
  intros d id. unfold material_current_stock, product_current_stock.
  split; [apply or_zero_aggregate_sum|].
  split; [intros H; rewrite H; reflexivity|].
  split; [apply or_zero_aggregate_sum|].
  intros H; rewrite H; reflexivity.
Qed.



Ltac str_q_facts :=
  repeat match goal with
  | H : String.eqb _ _ = true |- _ => apply String.eqb_eq in H
  | H : String.eqb _ _ = false |- _ => apply String.eqb_neq in H
  | H : Qlt_bool _ _ = true |- _ => apply Qlt_bool_iff in H
  | H : Qlt_bool _ _ = false |- _ => apply Qlt_bool_false in H
  end.

Lemma clean_sign (m m1 : StockMovement) :
  clean m = inr m1 ->
  unit_cost m1 = unit_cost m /\ total_cost m1 = total_cost m /\
  (movement_type m = "out" -> quantity m1 <= 0) /\
  (movement_type m = "in" -> 0 <= quantity m1) /\
  Qabs (quantity m1) == Qabs (quantity m).
Proof.
  unfold clean.
  destruct (negb (is_set (material m)) && negb (is_set (product m))); [discriminate|].
  destruct (is_set (material m) && is_set (product m)); [discriminate|].
  destruct (String.eqb (movement_type m) "out") eqn:Eo;
  destruct (Qlt_bool 0 (quantity m)) eqn:Ep;
  destruct (String.eqb (movement_type m) "in") eqn:Ei;
  destruct (Qlt_bool (quantity m) 0) eqn:En; simpl;
  intro H; inversion H; subst; simpl; str_q_facts;
  repeat split; intros; first [lra | congruence | apply Qabs_opp | reflexivity].
Qed.

(** Claim C10 (as amended): a saved movement has the sign its
    [movement_type] asks for ('out' non-positive, 'in' non-negative) and the
    magnitude the caller gave; its [total_cost] is [abs(quantity) * unit_cost]
    when [unit_cost] is non-zero and [total_cost] is [None] or zero, and is
    stored as given otherwise. *)
Theorem save_sign_and_total_cost :
  forall (d : list StockMovement) (m m' : StockMovement),
    fst (save d m) = inr m' ->
    (movement_type m = "out" -> quantity m' <= 0) /\
    (movement_type m = "in" -> 0 <= quantity m') /\
    Qabs (quantity m') == Qabs (quantity m) /\
    (truthy (unit_cost m) = true -> truthy (total_cost m) = false ->
       exists uc, unit_cost m = Some uc /\ total_cost m' = Some (Qabs (quantity m') * uc)) /\
    (truthy (unit_cost m) = false \/ truthy (total_cost m) = true ->
       total_cost m' = total_cost m).
Proof.
  intros d m m'. unfold save.
  destruct (clean m) as [e|m1] eqn:C; simpl; [discriminate|].
  intro H. inversion H as [H1]. clear H.
  destruct (clean_sign m m1 C) as (Hu & Ht & Hout & Hin & Habs).
  rewrite <- Hu, <- Ht.
  destruct (truthy (unit_cost m1)) eqn:Tu; destruct (truthy (total_cost m1)) eqn:Tt;
    simpl in H1; subst m'.
  - repeat split; auto; intros; try discriminate; try reflexivity.
  - destruct (unit_cost m1) as [uc|] eqn:U; [|discriminate].
    simpl. repeat split; auto; [intros; exists uc; split; reflexivity|].
    intros [F|F]; discriminate.
  - repeat split; auto; intros; try discriminate; try reflexivity.
  - repeat split; auto; intros; try discriminate; try reflexivity.
Qed.

(** The claim C10 as stated fails: with [unit_cost] set to 0 and no
    [total_cost], the saved movement keeps [total_cost = None] (the code
    tests [unit_cost] for truthiness), not [abs(quantity) * 0]. *)
Lemma save_total_cost_zero_unit_cost :
  ~ (forall (d : list StockMovement) (m m' : StockMovement) (uc : Q),
       fst (save d m) = inr m' -> unit_cost m = Some uc -> total_cost m = None ->
       total_cost m' = Some (Qabs (quantity m') * uc)).
Proof.
  intro H.
  specialize (H [] (mkStockMovement (Some 1%Z) None "in" 2 (Some 0) None)
                (mkStockMovement (Some 1%Z) None "in" 2 (Some 0) None) 0
                eq_refl eq_refl eq_refl).
  discriminate H.
Qed.

Lemma current_stock_is_movement_sum_witness :
  material_movements [] 7%Z = [] /\ material_current_stock [] 7%Z = 0.
Proof.
  split; [reflexivity|].
  apply (proj1 (proj2 (current_stock_is_movement_sum [] 7%Z))). reflexivity.
Defined.


Lemma save_sign_and_total_cost_witness :
  fst (save [] (mkStockMovement (Some 1%Z) None "out" 5 (Some 2) None)) =
    inr (mkStockMovement (Some 1%Z) None "out" (-5) (Some 2) (Some (Qabs (-5) * 2))) /\
  (- 5) <= 0.
Proof.
  split; [reflexivity|].
  apply (save_sign_and_total_cost []
           (mkStockMovement (Some 1%Z) None "out" 5 (Some 2) None)
           (mkStockMovement (Some 1%Z) None "out" (-5) (Some 2) (Some (Qabs (-5) * 2)))
           eq_refl).
  reflexivity.
Defined.

End InventoryFacts.

(** ** Sales order totals *)
Module SalesFacts.
Import Sales.

Lemma py_sum_fold_right (xs : list Q) : py_sum xs == fold_right Qplus 0 xs.
Proof.
  unfold py_sum. rewrite InventoryFacts.fold_left_Qplus. ring.
Qed.

(** Claim C2 (as amended): [calculate_totals] sets [subtotal] to the sum
    of the items' [total_price]; it recomputes [discount_amount] as
    [subtotal * discount_percentage / 100] only when the percentage is
    positive and [tax_amount] as [(subtotal - discount_amount) *
    tax_percentage / 100] only when that percentage is positive (otherwise
    the stored amounts are kept); [total_amount] is
    [(subtotal - discount_amount) + tax_amount + shipping_cost].  An item's
    [save] sets [total_price] to [quantity * unit_price - discount_amount],
    recomputing the item's [discount_amount] only for a positive item
    percentage.  With both order percentages positive this is exactly the
    formula of the claim. *)
Theorem calculate_totals_spec :
  forall (so : SalesOrder) (order_items : list SalesOrderItem),
    let r := calculate_totals so order_items in
    subtotal r == fold_right Qplus 0 (map total_price order_items) /\
    discount_amount r =
      (if Qlt_bool 0 (discount_percentage so)
       then subtotal r * discount_percentage so / 100 else discount_amount so) /\
    tax_amount r =
      (if Qlt_bool 0 (tax_percentage so)
       then (subtotal r - discount_amount r) * tax_percentage so / 100
       else tax_amount so) /\
    total_amount r = (subtotal r - discount_amount r) + tax_amount r + shipping_cost so /\
    (0 < discount_percentage so -> 0 < tax_percentage so ->
       discount_amount r = subtotal r * discount_percentage so / 100 /\
       tax_amount r = (subtotal r - discount_amount r) * tax_percentage so / 100) /\
    (forall it : SalesOrderItem,
       total_price (item_save it) =
         item_quantity it * item_unit_price it - item_discount_amount (item_save it) /\
       item_discount_amount (item_save it) =
         (if Qlt_bool 0 (item_discount_percentage it)
          then item_quantity it * item_unit_price it * item_discount_percentage it / 100
          else item_discount_amount it)).
Proof.
  intros so order_items r. subst r.
  split; [apply py_sum_fold_right|].
  split; [reflexivity|]. split; [reflexivity|]. split; [reflexivity|].
  split.
  - intros Hd Ht. simpl.
    apply InventoryFacts.Qlt_bool_iff in Hd. apply InventoryFacts.Qlt_bool_iff in Ht.
    rewrite Hd, Ht. split; reflexivity.
  - intro it. split; reflexivity.
Qed.

Lemma calculate_totals_spec_witness :
  discount_amount
    (calculate_totals (mkSalesOrder 0 10 0 5 0 3 0)
       [mkSalesOrderItem 2 50 0 0 100]) == 10.
Proof.
  pose proof (proj1 (proj2 (proj2 (proj2 (proj2
    (calculate_totals_spec (mkSalesOrder 0 10 0 5 0 3 0)
       [mkSalesOrderItem 2 50 0 0 100])))))) as H.
  destruct (H ltac:(reflexivity) ltac:(reflexivity)) as [Hd _].
  rewrite Hd. reflexivity.
Defined.

(** The claim C2 as stated fails: with [discount_percentage = 0] a stored
    [discount_amount] of 5 (editable in the admin) is kept, not reset to
    [subtotal * 0 / 100]. *)
Lemma calculate_totals_keeps_manual_discount :
  ~ (forall (so : SalesOrder) (order_items : list SalesOrderItem),
       discount_amount (calculate_totals so order_items) ==
       subtotal (calculate_totals so order_items) * discount_percentage so / 100).
Proof.
  intro H.
  specialize (H (mkSalesOrder 0 0 5 0 0 0 0) [mkSalesOrderItem 1 100 0 0 100]).
  vm_compute in H. discriminate H.
Qed.

End SalesFacts.

(** ** Financial *)
Module FinancialFacts.
Import Financial.

(** Claim C3 fails on the code: for a Decimal [gross_salary] (the type the
    model's [DecimalField] holds, and the one [calculate_gross_salary]
    produces) the first product [gross_salary * inss_rate] multiplies a
    Decimal by a float literal and raises [TypeError]; no INSS or IRRF is
    computed. *)
Theorem auto_calculate_taxes_decimal_type_error :
  auto_calculate_taxes (PDec 3000) =
    inl (TypeError "unsupported operand type(s) for *: 'decimal.Decimal' and 'float'").
Proof. reflexivity. Qed.

Lemma auto_calculate_taxes_decimal_always_fails (g : Q) :
  is_error (auto_calculate_taxes (PDec g)) = true.
Proof.
  unfold auto_calculate_taxes.
  repeat match goal with |- context [if ?b then _ else _] => destruct b end;
  reflexivity.
Qed.

Ltac q_facts :=
  repeat match goal with
  | H : Qle_bool _ _ = true |- _ => apply Qle_bool_iff in H
  | H : Qle_bool _ _ = false |- _ =>
      let H' := fresh in
      assert (H' : ~ _) by (intro H'; apply Qle_bool_iff in H'; rewrite H' in H; discriminate H);
      apply Qnot_le_lt in H'; clear H
  | H : Qlt_bool _ _ = true |- _ => apply InventoryFacts.Qlt_bool_iff in H
  | H : Qlt_bool _ _ = false |- _ => apply InventoryFacts.Qlt_bool_false in H
  end.

(** Claim C5 fails on the code: [make_payment] never records a payment.
    It raises [ValueError] exactly when [amount <= 0] or
    [paid_amount + amount > total_amount]; every other call raises
    [TypeError] in [objects.create], since the payment models extend
    [BaseModel], which has no [created_by] field.  In every case the
    account and the payment table are left unchanged. *)
Theorem make_payment_always_raises :
  forall (kind : ledger_kind) (id : Z) (l : Ledger) (payments : list Payment)
         (amount : Q) (method reference : string) (pdate : option Z) (today : Z),
    snd (fst (make_payment kind id l payments amount method reference pdate today)) = l /\
    snd (make_payment kind id l payments amount method reference pdate today) = payments /\
    ((amount <= 0 \/ total_amount l < paid_amount l + amount) <->
       exists msg, fst (fst (make_payment kind id l payments amount method reference
                               pdate today)) = inl (ValueError msg)) /\
    (0 < amount -> paid_amount l + amount <= total_amount l ->
       fst (fst (make_payment kind id l payments amount method reference pdate today)) =
         inl (TypeError (payment_model_name kind ++
                "() got unexpected keyword arguments: 'created_by'"))).
Proof.
  intros kind id l payments amount method reference pdate today.
  assert (Hinit : payment_init kind (make_payment_kwargs kind) =
            Some (TypeError (payment_model_name kind ++
                    "() got unexpected keyword arguments: 'created_by'")))
    by (destruct kind; reflexivity).
  unfold make_payment. rewrite Hinit.
  destruct (Qle_bool amount 0) eqn:E1.
  { apply Qle_bool_iff in E1. simpl.
    split; [reflexivity|]. split; [reflexivity|].
    split; [split; [intros _; eexists; reflexivity | intros _; left; exact E1]|].
    intros F; lra. }
  destruct (Qlt_bool (total_amount l) (paid_amount l + amount)) eqn:E2.
  { apply InventoryFacts.Qlt_bool_iff in E2. simpl.
    split; [reflexivity|]. split; [reflexivity|].
    split; [split; [intros _; eexists; reflexivity | intros _; right; exact E2]|].
    intros _ F; lra. }
  q_facts. simpl.
  split; [reflexivity|]. split; [reflexivity|].
  split; [|intros; reflexivity].
  split; [intros [F|F]; lra | intros [msg F]; discriminate F].
Qed.

Lemma make_payment_always_raises_witness :
  fst (fst (make_payment Receivable 1%Z (mkLedger 100 0 0 0 0 "pending" None "" "")
              [] 40 "pix" "" None 20000%Z)) =
    inl (TypeError "AccountsReceivablePayment() got unexpected keyword arguments: 'created_by'").
Proof.
  destruct (make_payment_always_raises Receivable 1%Z
              (mkLedger 100 0 0 0 0 "pending" None "" "") [] 40 "pix" "" None 20000%Z)
    as (_ & _ & _ & H).
  apply H; unfold total_amount; simpl; lra.
Defined.

End FinancialFacts.

(** ** Production order reservation *)
Module ProductionFacts.
Import Inventory Production.




Lemma save_reservation (d : list StockMovement) (mult : Q) (it : RecipeItem) :
  0 <= ri_quantity it * mult ->
  exists m2, save d (reservation mult it) = (inr m2, (d ++ [m2])%list) /\
    material m2 = Some (mat_id (ri_material it)) /\ movement_type m2 = "out" /\
    quantity m2 = - (ri_quantity it * mult).
Proof.
  intro Hq. unfold save, clean, reservation; simpl.
  destruct (Qlt_bool 0 (- (ri_quantity it * mult))) eqn:E.
  { apply InventoryFacts.Qlt_bool_iff in E. lra. }
  simpl.
  destruct (Qeq_bool (cost_per_unit (ri_material it)) 0); simpl;
    eexists; (split; [reflexivity|]); simpl; auto.
Qed.

Lemma create_all_ok (d : list StockMovement) (mult : Q) (items : list RecipeItem) :
  Forall (fun it => 0 <= ri_quantity it * mult) items ->
  exists news, create_all d mult items = (inr tt, (d ++ news)%list) /\
    Forall2 (fun it m => material m = Some (mat_id (ri_material it)) /\
                         movement_type m = "out" /\
                         quantity m = - (ri_quantity it * mult)) items news.
Proof.
  revert d. induction items as [|it rest IH]; intros d Hall; simpl.
  - exists []. rewrite app_nil_r. split; [reflexivity | constructor].
  - inversion Hall as [|? ? Hit Hrest]; subst.
    destruct (save_reservation d mult it Hit) as (m2 & Hs & Hm & Ht & Hq).
    rewrite Hs.
    destruct (IH (d ++ [m2])%list Hrest) as (news & Hc & Hf).
    exists (m2 :: news). rewrite Hc, <- app_assoc. split; [reflexivity|].
    constructor; auto.
Qed.



End ProductionFacts.

(** ** API error responses *)
Module ApiFacts.
Import Api.

(** Claim C6 (as amended): for every exception DRF's default handler
    recognises, [custom_exception_handler] keeps the status code and
    replaces the body by the envelope [{error: {code, message, details}}]
    whose [code] is [get_error_code] of the status code alone; an exception
    the default handler does not recognise gives [None].  A response a view
    returns itself (without raising) is sent unchanged by [dispatch]. *)
Theorem custom_exception_handler_envelope :
  forall (exc ctx : Type) (py_str : json -> string)
         (exception_handler : exc -> ctx -> option Response) (e : exc) (c : ctx),
    (exception_handler e c = None ->
       custom_exception_handler exc ctx py_str exception_handler e c = None) /\
    (forall r, exception_handler e c = Some r ->
       exists message details,
         custom_exception_handler exc ctx py_str exception_handler e c =
           Some (mkResponse (status_code r)
                   (envelope (get_error_code (status_code r)) message details))) /\
    (forall r, dispatch exc ctx py_str exception_handler c (Returned exc r) = Some r).
Proof.
  intros exc ctx py_str h e c. unfold custom_exception_handler.
  split; [intro H; rewrite H; reflexivity|].
  split; [|reflexivity].
  intros r H. rewrite H. eexists; eexists. reflexivity.
Qed.

Lemma custom_exception_handler_envelope_witness :
  custom_exception_handler unit unit (fun _ => "")
    (fun _ _ => Some (mkResponse 404 (JDict [("detail", JStr "Not found.")]))) tt tt =
  Some (mkResponse 404 (envelope "not_found" "Recurso não encontrado" (JDict []))).
Proof.
  destruct (proj1 (proj2 (custom_exception_handler_envelope unit unit (fun _ => "")
    (fun _ _ => Some (mkResponse 404 (JDict [("detail", JStr "Not found.")]))) tt tt))
    (mkResponse 404 (JDict [("detail", JStr "Not found.")])) eq_refl)
    as (message & details & H).
  rewrite H. vm_compute in H. inversion H. reflexivity.
Defined.

(** The claim C6 as stated fails: [start_production] on an order that is
    not pending returns a 400 response itself, with the body
    [{"error": "..."}]; no exception is raised, the custom handler never
    runs, and the body is not the envelope. *)
Lemma start_production_error_bypasses_handler :
  dispatch unit unit (fun _ => "") (fun _ _ => None) tt
    (start_production_action unit string (fun s => s) tt "in_progress") =
    Some (mkResponse 400
      (JDict [("error", JStr "Production order must be in pending status to start")])) /\
  ~ is_envelope (JDict [("error", JStr "Production order must be in pending status to start")]).
Proof.
  split; [reflexivity|].
  intros (code & message & details & H). unfold envelope in H.
  inversion H.
Qed.

End ApiFacts.

(** ** Delete views *)
Module ViewsFacts.
Import Views.


Lemma null_supplier_id (pk : Z) (ms : gmap Z (option Z)) :
  ~ map_Exists (fun _ s => s = Some pk) ms ->
  (fun s => if decide (s = Some pk) then None else s) <$> ms = ms.
Proof.
  intro Hn. apply map_eq. intro i. rewrite lookup_fmap.
  destruct (ms !! i) as [y|] eqn:Ei; simpl; [|reflexivity].
  destruct (decide (y = Some pk)) as [->|]; [|reflexivity].
  exfalso. apply Hn. exists i, (Some pk). auto.
Qed.

Lemma has_materials_false (d : db) (pk : Z) :
  has_materials d pk = false -> ~ map_Exists (fun _ s => s = Some pk) (material_supplier d).
Proof. unfold has_materials. intros H F. apply bool_decide_eq_false in H. contradiction. Qed.



End ViewsFacts.

(** ** Validation layer *)
Module ValidationFacts.
Import Validation.

Lemma has_nonneg_min_table :
  forallb (fun e => has_nonneg_min (snd e)) field_validators = true.
Proof. vm_compute. reflexivity. Qed.

Lemma has_nonneg_min_rejects (vs : list validator) (v : Q) :
  has_nonneg_min vs = true -> v < 0 -> run_validators vs v <> [].
Proof.
  intros H Hv. induction vs as [|[lim] rest IH]; simpl in *; [discriminate|].
  apply orb_true_iff in H. destruct H as [H|H].
  - apply Qle_bool_iff in H.
    destruct (Qlt_bool v lim) eqn:E; simpl; [intro F; discriminate F|].
    apply InventoryFacts.Qlt_bool_false in E. lra.
  - destruct (Qlt_bool v lim); simpl; [intro F; discriminate F|].
    apply IH. exact H.
Qed.

(** Claim C7: every numeric field that declares validators rejects every
    negative value, and the receivable and payable forms' [clean()] reject
    a [due_date] earlier than the [issue_date] / [invoice_date]. *)
Theorem validation_layer_invariants :
  (forall (model field : string) (vs : list validator) (v : Q),
     In (model, field, vs) field_validators -> v < 0 -> run_validators vs v <> []) /\
  (forall issue due : date, (due < issue)%Z ->
     is_error (receivable_form_clean (Some issue) (Some due)) = true) /\
  (forall invoice due : date, (due < invoice)%Z ->
     is_error (payable_form_clean (Some invoice) (Some due)) = true).
Proof.
  split; [|split].
  - intros model field vs v Hin Hv. apply has_nonneg_min_rejects; [|exact Hv].
    pose proof has_nonneg_min_table as T. rewrite forallb_forall in T.
    apply (T _ Hin).
  - intros i d H. unfold receivable_form_clean.
    apply Z.ltb_lt in H. rewrite H. reflexivity.
  - intros i d H. unfold payable_form_clean.
    apply Z.ltb_lt in H. rewrite H. reflexivity.
Qed.

Lemma validation_layer_invariants_witness :
  run_validators [MinValueValidator 0] (-1) <> [] /\
  is_error (receivable_form_clean (Some 10%Z) (Some 3%Z)) = true.
Proof.
  split.
  - apply (proj1 validation_layer_invariants "Customer" "credit_limit").
    + simpl. left. reflexivity.
    + reflexivity.
  - apply (proj1 (proj2 validation_layer_invariants)). lia.
Defined.

End ValidationFacts.

(** * Further properties of the modelled code *)

(** ** Stock levels through [StockMovement.save] *)
Module StockFacts.
Import Inventory.

Lemma fold_right_Qplus_app (l1 l2 : list Q) :
  fold_right Qplus 0 (l1 ++ l2) == fold_right Qplus 0 l1 + fold_right Qplus 0 l2.
Proof.
  induction l1 as [|x l1 IH]; simpl; [ring|]. rewrite IH. ring.
Qed.

Lemma material_stock_app (d news : list StockMovement) (id : Z) :
  material_current_stock (d ++ news) id ==
  material_current_stock d id + fold_right Qplus 0 (map quantity (material_movements news id)).
Proof.
  unfold material_current_stock, material_movements.
  rewrite !InventoryFacts.or_zero_aggregate_sum, List.filter_app, map_app.
  apply fold_right_Qplus_app.
Qed.

Lemma product_stock_app (d news : list StockMovement) (id : Z) :
  product_current_stock (d ++ news) id ==
  product_current_stock d id + fold_right Qplus 0 (map quantity (product_movements news id)).
Proof.
  unfold product_current_stock, product_movements.
  rewrite !InventoryFacts.or_zero_aggregate_sum, List.filter_app, map_app.
  apply fold_right_Qplus_app.
Qed.

Lemma clean_keys (m m1 : StockMovement) :
  clean m = inr m1 ->
  material m1 = material m /\ product m1 = product m /\ movement_type m1 = movement_type m.
Proof.
  unfold clean.
  destruct (negb (is_set (material m)) && negb (is_set (product m))); [discriminate|].
  destruct (is_set (material m) && is_set (product m)); [discriminate|].
  repeat match goal with |- context [if ?b then _ else _] => destruct b end;
    intro H; inversion H; subst; auto.
Qed.

(** What a successful [save] appends. *)
Lemma save_ok (d : list StockMovement) (m m' : StockMovement) :
  fst (save d m) = inr m' ->
  snd (save d m) = (d ++ [m'])%list /\ material m' = material m /\
  product m' = product m /\ Qabs (quantity m') == Qabs (quantity m) /\
  (movement_type m = "in" -> 0 <= quantity m') /\
  (movement_type m = "out" -> quantity m' <= 0).
Proof.
  unfold save. destruct (clean m) as [e|m1] eqn:C; simpl; [discriminate|].
  destruct (clean_keys m m1 C) as (Hm & Hp & _).
  destruct (InventoryFacts.clean_sign m m1 C) as (_ & _ & Hout & Hin & Habs).
  intro H. inversion H as [H1]; clear H.
  destruct (truthy (unit_cost m1) && negb (truthy (total_cost m1))); simpl in H1;
    [destruct (unit_cost m1)|]; subst m'; simpl; auto 7.
Qed.

Lemma stock_after_save (d : list StockMovement) (m m' : StockMovement) (id : Z) :
  fst (save d m) = inr m' ->
  material_current_stock (snd (save d m)) id ==
    material_current_stock d id + (if Z_opt_eqb (material m) id then quantity m' else 0) /\
  product_current_stock (snd (save d m)) id ==
    product_current_stock d id + (if Z_opt_eqb (product m) id then quantity m' else 0).
Proof.
  intro H. destruct (save_ok d m m' H) as (Hs & Hm & Hp & _).
  rewrite Hs, material_stock_app, product_stock_app.
  unfold material_movements, product_movements. simpl.
  rewrite Hm, Hp.
  split; destruct (Z_opt_eqb _ id); simpl; ring.
Qed.

(** Saving a movement changes the [current_stock] of its own material or
    product by the saved (sign-corrected) [quantity], and no other
    material's or product's stock. *)
Theorem save_updates_stock :
  forall (d : list StockMovement) (m m' : StockMovement) (id : Z),
    fst (save d m) = inr m' ->
    material_current_stock (snd (save d m)) id ==
      material_current_stock d id + (if Z_opt_eqb (material m) id then quantity m' else 0) /\
    product_current_stock (snd (save d m)) id ==
      product_current_stock d id + (if Z_opt_eqb (product m) id then quantity m' else 0).
Proof.
  intros d m m' id H. exact (stock_after_save d m m' id H).
Qed.

(** An 'in' movement never lowers any stock and an 'out' movement never
    raises one, whatever the sign of the quantity it was created with. *)
Theorem save_in_out_monotone :
  forall (d : list StockMovement) (m m' : StockMovement),
    fst (save d m) = inr m' ->
    (movement_type m = "in" -> forall id,
       material_current_stock d id <= material_current_stock (snd (save d m)) id /\
       product_current_stock d id <= product_current_stock (snd (save d m)) id) /\
    (movement_type m = "out" -> forall id,
       material_current_stock (snd (save d m)) id <= material_current_stock d id /\
       product_current_stock (snd (save d m)) id <= product_current_stock d id).
Proof.
  intros d m m' H.
  destruct (save_ok d m m' H) as (_ & _ & _ & _ & Hin & Hout).
  split; intros T id; destruct (stock_after_save d m m' id H) as [E1 E2];
    rewrite E1, E2.
  - specialize (Hin T).
    destruct (Z_opt_eqb (material m) id), (Z_opt_eqb (product m) id); split; lra.
  - specialize (Hout T).
    destruct (Z_opt_eqb (material m) id), (Z_opt_eqb (product m) id); split; lra.
Qed.

Lemma save_updates_stock_witness :
  fst (save [] (mkStockMovement (Some 1%Z) None "in" 5 None None)) =
    inr (mkStockMovement (Some 1%Z) None "in" 5 None None) /\
  material_current_stock
    (snd (save [] (mkStockMovement (Some 1%Z) None "in" 5 None None))) 1%Z ==
    material_current_stock [] 1%Z + 5.
Proof.
  split; [reflexivity|].
  exact (proj1 (save_updates_stock [] (mkStockMovement (Some 1%Z) None "in" 5 None None)
                  (mkStockMovement (Some 1%Z) None "in" 5 None None) 1%Z eq_refl)).
Defined.

Lemma save_in_out_monotone_witness :
  fst (save [] (mkStockMovement None (Some 2%Z) "out" 3 None None)) =
    inr (mkStockMovement None (Some 2%Z) "out" (-3) None None) /\
  product_current_stock
    (snd (save [] (mkStockMovement None (Some 2%Z) "out" 3 None None))) 2%Z
    <= product_current_stock [] 2%Z.
Proof.
  split; [reflexivity|].
  exact (proj2 (proj2 (save_in_out_monotone [] (mkStockMovement None (Some 2%Z) "out" 3 None None)
                  (mkStockMovement None (Some 2%Z) "out" (-3) None None) eq_refl)
                  eq_refl 2%Z)).
Defined.

End StockFacts.

(** ** Production orders and recipes *)
Module ProductionOrderFacts.
Import Inventory Production.

Lemma sum_filter_news (mult : Q) (items : list RecipeItem) (news : list StockMovement)
    (id : Z) :
  Forall2 (fun it m => material m = Some (mat_id (ri_material it)) /\
                       movement_type m = "out" /\
                       quantity m = - (ri_quantity it * mult)) items news ->
  fold_right Qplus 0 (map quantity (material_movements news id)) ==
    - fold_right Qplus 0 (map (fun it => ri_quantity it * mult)
        (List.filter (fun it => Z.eqb (mat_id (ri_material it)) id) items)).
Proof.
  induction 1 as [|it m items news (Hm & _ & Hq) _ IH]; simpl; [reflexivity|].
  unfold material_movements in *. simpl. rewrite Hm. simpl.
  destruct (Z.eqb (mat_id (ri_material it)) id); simpl; rewrite IH; [rewrite Hq|]; ring.
Qed.

Lemma create_all_products (d d' : list StockMovement) (mult : Q) (items : list RecipeItem) :
  create_all d mult items = (inr tt, d') ->
  exists news, d' = (d ++ news)%list /\ Forall (fun m => product m = None) news.
Proof.
  revert d. induction items as [|it rest IH]; intros d H; simpl in H.
  - inversion H; subst. exists []. rewrite app_nil_r. auto.
  - destruct (save d (reservation mult it)) as [[e|m2] d1] eqn:S; [discriminate|].
    assert (Hs : fst (save d (reservation mult it)) = inr m2) by (rewrite S; reflexivity).
    destruct (StockFacts.save_ok _ _ _ Hs) as (Hd & _ & Hp & _).
    rewrite S in Hd. simpl in Hd. subst d1.
    destruct (IH _ H) as (news & -> & Hf).
    exists (m2 :: news). rewrite <- app_assoc. split; [reflexivity|].
    constructor; [exact Hp | exact Hf].
Qed.

(** Under the hypotheses of claim C4, a successful [reserve_materials]
    came through [can_start_production] and the reservation loop. *)
Lemma reserve_ok (d : list StockMovement) (po : ProductionOrder) :
  0 < yield_quantity (recipe po) ->
  0 <= planned_quantity po ->
  Forall (fun it => 0 <= ri_quantity it) (recipe_items (recipe po)) ->
  fst (reserve_materials d po) = inr tt ->
  let mult := planned_quantity po / yield_quantity (recipe po) in
  (forall it, In it (recipe_items (recipe po)) ->
     ri_quantity it * mult <= material_current_stock d (mat_id (ri_material it))) /\
  exists news,
    snd (reserve_materials d po) = (d ++ news)%list /\
    Forall2 (fun it m => material m = Some (mat_id (ri_material it)) /\
                         movement_type m = "out" /\
                         quantity m = - (ri_quantity it * mult))
      (recipe_items (recipe po)) news /\
    Forall (fun m => product m = None) news.
Proof.
  intros Hy Hp Hq Hok mult.
  assert (Hm : multiplier po = inr mult).
  { unfold multiplier. destruct (Qeq_bool (yield_quantity (recipe po)) 0) eqn:E.
    - apply Qeq_bool_iff in E. lra.
    - reflexivity. }
  assert (Hmult : 0 <= mult).
  { unfold mult, Qdiv. apply Qmult_le_0_compat; [exact Hp|].
    apply Qinv_le_0_compat. lra. }
  assert (Hall : Forall (fun it => 0 <= ri_quantity it * mult) (recipe_items (recipe po))).
  { eapply Forall_impl; [exact Hq|]. intros it H. apply Qmult_le_0_compat; assumption. }
  unfold reserve_materials, can_start_production, materials_needed in *.
  rewrite Hm in *.
  destruct (forallb _ _) eqn:B; [|discriminate].
  destruct (ProductionFacts.create_all_ok d mult _ Hall) as (news & Hc & H2).
  split.
  - intros it Hin. rewrite forallb_forall in B.
    specialize (B _ (in_map _ _ _ Hin)). simpl in B.
    apply Qeq_bool_iff in B. unfold py_max in B.
    destruct (Qlt_bool 0 _) eqn:L; [|apply InventoryFacts.Qlt_bool_false in L; lra].
    lra.
  - rewrite Hc. exists news. split; [reflexivity|]. split; [exact H2|].
    destruct (create_all_products d (d ++ news)%list mult _ Hc) as (news' & E & Hf).
    apply app_inv_head in E. subst news'. exact Hf.
Qed.

Lemma filter_single (items : list RecipeItem) (it : RecipeItem) :
  NoDup (map (fun i => mat_id (ri_material i)) items) -> In it items ->
  List.filter (fun i => Z.eqb (mat_id (ri_material i)) (mat_id (ri_material it))) items = [it].
Proof.
  induction items as [|i rest IH]; intros Hnd Hin; [destruct Hin|].
  simpl in Hnd. inversion Hnd as [|? ? Hnot Hnd']; subst.
  destruct Hin as [<-|Hin]; simpl.
  - rewrite Z.eqb_refl.
    assert (E : List.filter (fun i0 => Z.eqb (mat_id (ri_material i0)) (mat_id (ri_material i)))
                  rest = []).
    { clear IH Hnd Hnd'. induction rest as [|x rest IHr]; simpl; [reflexivity|].
      destruct (Z.eqb (mat_id (ri_material x)) (mat_id (ri_material i))) eqn:B.
      - apply Z.eqb_eq in B. exfalso. apply Hnot. apply list_elem_of_In. rewrite <- B. now left.
      - apply IHr. intro F. apply Hnot. apply list_elem_of_In. right. apply list_elem_of_In. exact F. }
    rewrite E. reflexivity.
  - destruct (Z.eqb (mat_id (ri_material i)) (mat_id (ri_material it))) eqn:B.
    + apply Z.eqb_eq in B. exfalso. apply Hnot. rewrite B. apply list_elem_of_In. exact (in_map (fun i0 => mat_id (ri_material i0)) rest it Hin).
    + apply IH; assumption.
Qed.

(** With the recipe's materials distinct ([RecipeItem]'s
    [unique_together = ['recipe', 'material']]) and the hypotheses of
    claim C4, a successful [reserve_materials] leaves every material of
    the recipe with a non-negative [current_stock]. *)
Theorem reserve_materials_keeps_stock_nonneg :
  forall (d : list StockMovement) (po : ProductionOrder),
    0 < yield_quantity (recipe po) ->
    0 <= planned_quantity po ->
    Forall (fun it => 0 <= ri_quantity it) (recipe_items (recipe po)) ->
    NoDup (map (fun it => mat_id (ri_material it)) (recipe_items (recipe po))) ->
    fst (reserve_materials d po) = inr tt ->
    forall it, In it (recipe_items (recipe po)) ->
      0 <= material_current_stock (snd (reserve_materials d po)) (mat_id (ri_material it)).
Proof.
  intros d po Hy Hp Hq Hnd Hok it Hin.
  destruct (reserve_ok d po Hy Hp Hq Hok) as (Hle & news & Hs & H2 & _).
  specialize (Hle it Hin).
  rewrite Hs, StockFacts.material_stock_app, (sum_filter_news _ _ _ _ H2).
  rewrite (filter_single _ it Hnd Hin). simpl. lra.
Qed.

Lemma reserve_materials_keeps_stock_nonneg_witness :
  0 <= material_current_stock
    (snd (reserve_materials [mkStockMovement (Some 1%Z) None "in" 10 None None]
            (mkProductionOrder (mkRecipe 2 [mkRecipeItem (mkMaterial 1%Z 3) 4]) 1 "OP-1")))
    1%Z.
Proof.
  apply (reserve_materials_keeps_stock_nonneg [mkStockMovement (Some 1%Z) None "in" 10 None None]
    (mkProductionOrder (mkRecipe 2 [mkRecipeItem (mkMaterial 1%Z 3) 4]) 1 "OP-1")
    ltac:(simpl; lra) ltac:(simpl; lra) ltac:(simpl; repeat constructor; simpl; lra)
    ltac:(simpl; apply NoDup_singleton)
    ltac:(vm_compute; reflexivity) (mkRecipeItem (mkMaterial 1%Z 3) 4)).
  simpl. left. reflexivity.
Defined.

End ProductionOrderFacts.

(** ** Recipe costs, completion and variances *)
Module RecipeFacts.
Import Production.

(** [completion_percentage] is 0 for a non-positive planned quantity, lies
    between 0 and 100 for a non-negative produced quantity, and is 100 once
    the produced quantity reaches a positive planned quantity. *)
Theorem completion_percentage_bounds :
  forall (po : ProductionOrder) (pr : OrderProgress),
    (planned_quantity po <= 0 -> completion_percentage po pr = 0) /\
    (0 <= produced_quantity pr ->
       0 <= completion_percentage po pr /\ completion_percentage po pr <= 100) /\
    (0 < planned_quantity po -> planned_quantity po <= produced_quantity pr ->
       completion_percentage po pr == 100).
Proof.
  intros po pr. unfold completion_percentage, py_min.
  destruct (Qlt_bool 0 (planned_quantity po)) eqn:P.
  - apply InventoryFacts.Qlt_bool_iff in P.
    split; [intro; lra|].
    destruct (Qlt_bool 100 (produced_quantity pr / planned_quantity po * 100)) eqn:M;
      InventoryFacts.str_q_facts.
    + split; [intros _; lra|]. intros _ _. reflexivity.
    + split.
      * intro H. split; [|exact M].
        apply Qmult_le_0_compat; [|lra].
        unfold Qdiv. apply Qmult_le_0_compat; [exact H|]. apply Qinv_le_0_compat. lra.
      * intros _ H. apply Qle_antisym; [exact M|].
        assert (1 <= produced_quantity pr / planned_quantity po).
        { apply Qle_shift_div_l; [exact P|]. lra. }
        lra.
  - apply InventoryFacts.Qlt_bool_false in P.
    split; [reflexivity|]. split; [intros _; lra|]. intros; lra.
Qed.

(** A production order item's [variance_cost] is its [variance_quantity]
    priced at its [unit_cost]. *)
Theorem variance_cost_is_priced_variance :
  forall i : ProductionOrderItem,
    variance_cost i == variance_quantity i * item_unit_cost i.
Proof.
  intro i. unfold variance_cost, variance_quantity, total_actual_cost, total_planned_cost.
  ring.
Qed.

Lemma completion_percentage_bounds_witness :
  completion_percentage (mkProductionOrder (mkRecipe 2 []) 10 "OP-1")
    (mkOrderProgress 12 "completed" None) == 100.
Proof.
  apply (proj2 (proj2 (completion_percentage_bounds
    (mkProductionOrder (mkRecipe 2 []) 10 "OP-1") (mkOrderProgress 12 "completed" None))));
    simpl; lra.
Defined.

End RecipeFacts.

(** ** Sales order recomputation and production orders *)
Module SalesOrderFacts.
Import Sales.

(** Recomputing is stable: [SalesOrderItem.save] on an item it has just
    saved, and [calculate_totals] on an order it has just computed (over
    the same items), change nothing. *)
Theorem sales_recompute_idempotent :
  forall (it : SalesOrderItem) (so : SalesOrder) (order_items : list SalesOrderItem),
    item_save (item_save it) = item_save it /\
    calculate_totals (calculate_totals so order_items) order_items =
      calculate_totals so order_items.
Proof.
  intros it so order_items. split.
  - unfold item_save. simpl.
    destruct (Qlt_bool 0 (item_discount_percentage it)); reflexivity.
  - unfold calculate_totals. simpl.
    destruct (Qlt_bool 0 (discount_percentage so)), (Qlt_bool 0 (tax_percentage so));
      reflexivity.
Qed.

(** When [can_be_produced] holds, [create_production_orders] creates no
    production order and leaves the table as it was. *)
Theorem can_be_produced_creates_nothing :
  forall (stock : list Inventory.StockMovement) (recipes : list RecipeRow)
         (order_number : string) (lines : list ProductLine) (pos : list CreatedOrder),
    can_be_produced stock lines = true ->
    create_production_orders stock recipes order_number lines pos = (inr [], pos).
Proof.
  intros stock recipes order_number lines pos H.
  induction lines as [|item rest IH]; simpl in *; [reflexivity|].
  apply andb_true_iff in H. destruct H as [H1 H2].
  apply negb_true_iff in H1. rewrite H1. apply IH. exact H2.
Qed.

Lemma create_production_orders_table (stock : list Inventory.StockMovement)
    (recipes : list RecipeRow) (on : string) (lines : list ProductLine)
    (pos pos1 : list CreatedOrder) (created : list CreatedOrder) :
  create_production_orders stock recipes on lines pos = (inr created, pos1) ->
  pos1 = (pos ++ created)%list.
Proof.
  revert pos created. induction lines as [|item rest IH]; intros pos created H; simpl in H.
  - inversion H; subst. rewrite app_nil_r. reflexivity.
  - destruct (Qlt_bool _ _); [|apply IH; exact H].
    destruct (active_recipe recipes (line_product item)) as [r|]; [|apply IH; exact H].
    unfold create_order in H.
    destruct (existsb _ pos); [discriminate|].
    destruct (create_production_orders stock recipes on rest _) as [[e|cs] pos2] eqn:R;
      [discriminate|].
    inversion H; subst. rewrite (IH _ _ R), <- app_assoc. reflexivity.
Qed.

Lemma create_production_orders_conflict (stock : list Inventory.StockMovement)
    (recipes : list RecipeRow) (on : string) (lines : list ProductLine)
    (pos pos' pos1 : list CreatedOrder) (c : CreatedOrder) (cs : list CreatedOrder) :
  create_production_orders stock recipes on lines pos = (inr (c :: cs), pos1) ->
  existsb (fun p => String.eqb (co_order_number p) (co_order_number c)) pos' = true ->
  exists e, fst (create_production_orders stock recipes on lines pos') = inl e.
Proof.
  revert pos pos'. induction lines as [|item rest IH]; intros pos pos' H Hc; simpl in H |- *.
  - discriminate.
  - destruct (Qlt_bool _ _); [|eapply IH; eassumption].
    destruct (active_recipe recipes (line_product item)) as [r|]; [|eapply IH; eassumption].
    unfold create_order in H |- *.
    destruct (existsb _ pos); [discriminate|].
    destruct (create_production_orders stock recipes on rest _) as [[e|cs'] pos2];
      [discriminate|].
    inversion H; subst. simpl in Hc |- *. rewrite Hc. simpl. eexists. reflexivity.
Qed.

(** [create_production_orders] cannot be run twice for the same sales
    order: when a first run has created some production order, a second
    run on the resulting table raises [IntegrityError] on the unique
    [order_number] (the stock it tests is unchanged by the first run). *)
Theorem create_production_orders_not_rerunnable :
  forall (stock : list Inventory.StockMovement) (recipes : list RecipeRow)
         (order_number : string) (lines : list ProductLine)
         (pos pos1 : list CreatedOrder) (c : CreatedOrder) (cs : list CreatedOrder),
    create_production_orders stock recipes order_number lines pos = (inr (c :: cs), pos1) ->
    exists e, fst (create_production_orders stock recipes order_number lines pos1) = inl e.
Proof.
  intros stock recipes on lines pos pos1 c cs H.
  eapply create_production_orders_conflict; [exact H|].
  rewrite (create_production_orders_table _ _ _ _ _ _ _ H).
  apply existsb_exists. exists c. split; [|apply String.eqb_refl].
  apply in_or_app. right. left. reflexivity.
Qed.

Lemma can_be_produced_creates_nothing_witness :
  create_production_orders [Inventory.mkStockMovement None (Some 7%Z) "in" 10 None None]
    [mkRecipeRow 1%Z 7%Z "active"] "PV-1" [mkProductLine 7%Z "CAF01" 4] [] = (inr [], []).
Proof.
  apply can_be_produced_creates_nothing. vm_compute. reflexivity.
Defined.

Lemma create_production_orders_not_rerunnable_witness :
  create_production_orders [] [mkRecipeRow 1%Z 7%Z "active"] "PV-1"
    [mkProductLine 7%Z "CAF01" 4] [] =
    (inr [mkCreatedOrder "OP-PV-1-CAF01" 1%Z 4], [mkCreatedOrder "OP-PV-1-CAF01" 1%Z 4]) /\
  exists e, fst (create_production_orders [] [mkRecipeRow 1%Z 7%Z "active"] "PV-1"
                   [mkProductLine 7%Z "CAF01" 4] [mkCreatedOrder "OP-PV-1-CAF01" 1%Z 4]) = inl e.
Proof.
  split; [vm_compute; reflexivity|].
  apply (create_production_orders_not_rerunnable [] [mkRecipeRow 1%Z 7%Z "active"] "PV-1"
           [mkProductLine 7%Z "CAF01" 4] [] [mkCreatedOrder "OP-PV-1-CAF01" 1%Z 4]
           (mkCreatedOrder "OP-PV-1-CAF01" 1%Z 4) []).
  vm_compute. reflexivity.
Defined.

End SalesOrderFacts.

(** ** Receivables and payables: overdue days *)
Module LedgerFacts.
Import Financial.

(** [days_overdue] is never negative, and is 0 for an account whose
    status is neither 'pending' nor 'partially_paid'. *)
Theorem days_overdue_nonneg :
  forall (today due_date : Z) (l : Ledger),
    (0 <= days_overdue today due_date l)%Z /\
    (status l <> "pending" -> status l <> "partially_paid" ->
       days_overdue today due_date l = 0%Z).
Proof.
  intros today due l. unfold days_overdue, is_overdue.
  split.
  - destruct (Z.ltb due today) eqn:B; simpl; [|lia].
    destruct (_ || _); [apply Z.ltb_lt in B; lia | lia].
  - intros H1 H2. apply String.eqb_neq in H1, H2. rewrite H1, H2, andb_false_r.
    reflexivity.
Qed.

Lemma days_overdue_nonneg_witness :
  days_overdue 30%Z 10%Z (mkLedger 100 100 0 0 0 "paid" (Some 5%Z) "" "") = 0%Z.
Proof.
  apply (proj2 (days_overdue_nonneg 30%Z 10%Z (mkLedger 100 100 0 0 0 "paid" (Some 5%Z) "" "")));
    simpl; discriminate.
Defined.

End LedgerFacts.

(** ** Payroll processing *)
Module PayrollFacts.
Import Financial Payrolls.

Lemma taxes_decimal_error (g : Q) :
  auto_calculate_taxes (PDec g) =
    inl (TypeError "unsupported operand type(s) for *: 'decimal.Decimal' and 'float'").
Proof.
  unfold auto_calculate_taxes.
  repeat match goal with |- context [if ?b then _ else _] => destruct b end;
  reflexivity.
Qed.

Lemma calculate_overtime_gross (r : option Q) (p : Payroll) :
  gross_salary (calculate_overtime r p) = gross_salary p.
Proof.
  unfold calculate_overtime.
  repeat match goal with |- context [if ?b then _ else _] => destruct b end;
  try destruct (if _ then _ else r); try destruct r; reflexivity.
Qed.

(** [PayrollAdmin.process_payrolls] fails on every selection of rows
    holding a Decimal [gross_salary] (as every row loaded from the
    [DecimalField] does): the first row raises [TypeError] in
    [auto_calculate_taxes], before its status is set or it is saved, and
    no row is processed. *)
Theorem process_payrolls_decimal_rows_fail :
  forall queryset : list Payroll,
    queryset <> [] ->
    Forall (fun p => exists g, gross_salary p = PDec g) queryset ->
    process_payrolls queryset =
      (inl (TypeError "unsupported operand type(s) for *: 'decimal.Decimal' and 'float'"), []).
Proof.
  intros qs Hne Hall. destruct qs as [|p rest]; [contradiction|].
  inversion Hall as [|? ? [g Hg] _]; subst.
  simpl. unfold process_payroll.
  assert (E : gross_salary (if Qlt_bool 0 (overtime_hours p)
                            then calculate_overtime None p else p) = PDec g).
  { destruct (Qlt_bool 0 (overtime_hours p));
      [rewrite calculate_overtime_gross|]; exact Hg. }
  rewrite E, taxes_decimal_error. reflexivity.
Qed.

(** When [process_payroll] succeeds, the INSS and IRRF it stores are those
    of the [gross_salary] stored before the call (not of the earnings it
    then adds up); the row gets status 'calculated', [gross_salary] the sum
    of its earnings as a Decimal, and [net_salary] that gross minus
    [total_deductions]. *)
Theorem process_payroll_taxes_stale_gross :
  forall p p' : Payroll,
    process_payroll p = inr p' ->
    auto_calculate_taxes (gross_salary p) = inr (inss_amount p', irrf_amount p') /\
    payroll_status p' = "calculated" /\
    gross_salary p' = PDec (base_salary p' + overtime_amount p' + bonus_amount p'
                            + commission_amount p' + other_earnings p') /\
    net_salary p' == val (gross_salary p') - total_deductions p'.
Proof.
  intros p p'. unfold process_payroll.
  assert (E : gross_salary (if Qlt_bool 0 (overtime_hours p)
                            then calculate_overtime None p else p) = gross_salary p).
  { destruct (Qlt_bool 0 (overtime_hours p)); [apply calculate_overtime_gross|reflexivity]. }
  rewrite E.
  destruct (auto_calculate_taxes (gross_salary p)) as [e|[inss irrf]]; [discriminate|].
  intro H. inversion H; subst; clear H. simpl.
  split; [reflexivity|]. split; [reflexivity|]. split; reflexivity.
Qed.

Lemma process_payrolls_decimal_rows_fail_witness :
  process_payrolls
    [mkPayroll 3000 0 0 0 0 0 (PDec 3000) (PDec 0) (PDec 0) 0 0 0 0 0 0 0 0 "draft"] =
    (inl (TypeError "unsupported operand type(s) for *: 'decimal.Decimal' and 'float'"), []).
Proof.
  apply process_payrolls_decimal_rows_fail; [discriminate|].
  constructor; [eexists; reflexivity | constructor].
Defined.

Lemma process_payroll_taxes_stale_gross_witness :
  exists p', process_payroll
    (mkPayroll 3000 0 0 0 0 0 (PInt 1000) (PInt 0) (PInt 0) 0 0 0 0 0 0 0 0 "draft") = inr p' /\
    auto_calculate_taxes (PInt 1000) = inr (inss_amount p', irrf_amount p').
Proof.
  destruct (process_payroll
    (mkPayroll 3000 0 0 0 0 0 (PInt 1000) (PInt 0) (PInt 0) 0 0 0 0 0 0 0 0 "draft"))
    as [e|p'] eqn:E; [vm_compute in E; discriminate E|].
  exists p'. split; [reflexivity|].
  exact (proj1 (process_payroll_taxes_stale_gross _ p' E)).
Defined.

End PayrollFacts.

(** ** Field validators and form checks *)
Module ValidatorFacts.
Import Validation.

Lemma discount_entries :
  forall e, In e field_validators -> snd (fst e) = "discount_percentage" ->
    snd e = [MinValueValidator 0; MinValueValidator 100].
Proof.
  intros e H. simpl in H.
  repeat (destruct H as [<-|H]; [simpl; first [reflexivity | discriminate] |]).
  destruct H.
Qed.

(** Every [discount_percentage] field (on [Customer], [SalesOrder] and
    [SalesOrderItem]) declares [MinValueValidator(0)] and
    [MinValueValidator(100)], so its validation rejects every value below
    100: no discount below 100% passes the field's validators. *)
Theorem discount_percentage_rejects_below_100 :
  forall (model : string) (vs : list validator),
    In (model, "discount_percentage", vs) field_validators ->
    forall v : Q, v < 100 -> run_validators vs v <> [].
Proof.
  intros model vs H v Hv.
  pose proof (discount_entries _ H eq_refl) as E. simpl in E. subst vs.
  simpl. destruct (Qlt_bool v 0) eqn:B0; destruct (Qlt_bool v 100) eqn:B1;
    InventoryFacts.str_q_facts; simpl; first [discriminate | lra].
Qed.

Lemma discount_percentage_rejects_below_100_witness :
  run_validators [MinValueValidator 0; MinValueValidator 100] 10 <> [].
Proof.
  apply (discount_percentage_rejects_below_100 "SalesOrder"
           [MinValueValidator 0; MinValueValidator 100]).
  - simpl. right; right; left. reflexivity.
  - lra.
Defined.

End ValidatorFacts.

(** ** API error envelope details *)
Module ApiDetailFacts.
Import Api.

Lemma jlookup_jpop_same (kvs : list (string * json)) (k : string) :
  jlookup (jpop kvs k) k = None.
Proof.
  induction kvs as [|[k' v] rest IH]; simpl; [reflexivity|].
  destruct (String.eqb k' k) eqn:E; simpl; [exact IH|].
  rewrite String.eqb_sym, E. exact IH.
Qed.

Lemma jlookup_jpop_other (kvs : list (string * json)) (k k' : string) :
  k' <> k -> jlookup (jpop kvs k) k' = jlookup kvs k'.
Proof.
  intro Hne. induction kvs as [|[k0 v] rest IH]; simpl; [reflexivity|].
  destruct (String.eqb k0 k) eqn:E; simpl.
  - apply String.eqb_eq in E. subst k0.
    apply String.eqb_neq in Hne. rewrite Hne. exact IH.
  - destruct (String.eqb k' k0); [reflexivity | exact IH].
Qed.

(** For a dict body, the envelope's [details] are the original dict
    without its 'detail' and 'message' keys, every other key keeping its
    value. *)
Theorem format_error_details_dict :
  forall (py_str : json -> string) (kvs : list (string * json)),
    exists kvs',
      format_error_details py_str (JDict kvs) = JDict kvs' /\
      jlookup kvs' "detail" = None /\ jlookup kvs' "message" = None /\
      (forall k, k <> "detail" -> k <> "message" -> jlookup kvs' k = jlookup kvs k).
Proof.
  intros py_str kvs. eexists. split; [reflexivity|].
  split; [|split].
  - rewrite jlookup_jpop_other by discriminate. apply jlookup_jpop_same.
  - apply jlookup_jpop_same.
  - intros k H1 H2. rewrite !jlookup_jpop_other by assumption. reflexivity.
Qed.

Lemma dict_get_default {V} (kvs : list (Z * V)) (k : Z) (d : V) :
  Forall (fun kv => snd kv <> d) kvs ->
  dict_get kvs k d = d <-> ~ In k (map fst kvs).
Proof.
  intro Hall. induction Hall as [|[k' v] rest Hv _ IH]; simpl in *.
  - split; auto.
  - destruct (Z.eqb k k') eqn:E.
    + apply Z.eqb_eq in E. subst. split; [intro; contradiction | intro F; exfalso; auto].
    + apply Z.eqb_neq in E. rewrite IH. split; intros H F; apply H;
        [destruct F as [F|F]; [congruence | exact F] | right; exact F].
Qed.

(** [get_error_code] answers 'unknown_error' exactly for the status codes
    outside its table (400, 401, 403, 404, 405, 406, 409, 422, 429, 500,
    502, 503). *)
Theorem get_error_code_unknown :
  forall status_code : Z,
    get_error_code status_code = "unknown_error" <->
    ~ In status_code [400; 401; 403; 404; 405; 406; 409; 422; 429; 500; 502; 503]%Z.
Proof.
  intro s. unfold get_error_code. apply dict_get_default.
  repeat constructor; simpl; discriminate.
Qed.

End ApiDetailFacts.

(** ** Delete views: what they leave alone *)
Module ViewsFrameFacts.
Import Views.

(** The views' [delete()] handlers answer [Http404] and change nothing
    when the row is missing; a supplier delete that [ProtectedError]
    refuses (no materials, but payables referencing the supplier) changes
    nothing; a category or supplier delete touches only its own row of its
    own table, and a supplier delete leaves the materials' supplier links
    and the payables as they are. *)
Theorem delete_views_frame :
  forall (now pk : Z) (d : db),
    (categories d !! pk = None -> category_delete now pk d = (Http404, d)) /\
    (suppliers d !! pk = None -> supplier_delete now pk d = (Http404, d)) /\
    (employees d !! pk = None -> employee_delete now pk d = (Http404, d)) /\
    (forall r, suppliers d !! pk = Some r -> has_materials d pk = false ->
       has_payables d pk = true -> supplier_delete now pk d = (ProtectedError, d)) /\
    (forall k, k <> pk ->
       categories (snd (category_delete now pk d)) !! k = categories d !! k /\
       suppliers (snd (supplier_delete now pk d)) !! k = suppliers d !! k) /\
    suppliers (snd (category_delete now pk d)) = suppliers d /\
    employees (snd (category_delete now pk d)) = employees d /\
    users (snd (category_delete now pk d)) = users d /\
    categories (snd (supplier_delete now pk d)) = categories d /\
    employees (snd (supplier_delete now pk d)) = employees d /\
    users (snd (supplier_delete now pk d)) = users d /\
    material_supplier (snd (supplier_delete now pk d)) = material_supplier d /\
    payable_supplier (snd (supplier_delete now pk d)) = payable_supplier d.
Proof.
  intros now pk d. unfold category_delete, supplier_delete, employee_delete.
  split; [intro H; rewrite H; reflexivity|].
  split; [intro H; rewrite H; reflexivity|].
  split; [intro H; rewrite H; reflexivity|].
  split.
  { intros r Hs Hm Hp. rewrite Hs, Hm. unfold supplier_obj_delete. rewrite Hp. reflexivity. }
  destruct (categories d !! pk) as [c|] eqn:Ec;
    destruct (suppliers d !! pk) as [s|] eqn:Es;
    try (destruct (has_materials d pk) eqn:Hm);
    try (unfold supplier_obj_delete; destruct (has_payables d pk));
    simpl; repeat split; intros;
    first [ apply lookup_insert_ne; congruence
          | apply lookup_delete_ne; congruence
          | apply ViewsFacts.null_supplier_id, ViewsFacts.has_materials_false; assumption
          | reflexivity ].
Qed.

(** [EmployeeDeleteView] deactivates the user but, saving the employee
    through [Employee.save], leaves the user marked [is_employee = True]
    (even if it was not before) with [updated_at] refreshed; an employee
    whose user row is missing gives [DoesNotExist] and changes nothing. *)
Theorem employee_delete_marks_user_employee :
  forall (now pk : Z) (d : db) (e : row) (uid : Z),
    employees d !! pk = Some e -> employee_user d !! pk = Some uid ->
    (forall u, users d !! uid = Some u ->
       exists u', users (snd (employee_delete now pk d)) !! uid = Some u' /\
         u_is_active u' = false /\ u_is_employee u' = true /\ u_updated_at u' = now) /\
    (users d !! uid = None -> employee_delete now pk d = (DoesNotExist, d)).
Proof.
  intros now pk d e uid He Hu. split.
  - intros u Huu.
    unfold employee_delete. rewrite He, Hu, Huu. simpl.
    unfold employee_save. simpl. rewrite Hu. simpl. rewrite lookup_insert_eq.
    destruct (u_is_employee u) eqn:Ee; simpl;
      repeat (rewrite lookup_insert_eq; simpl);
      eexists; (split; [reflexivity|]); simpl; auto.
  - intro Hn. unfold employee_delete. rewrite He, Hu, Hn. reflexivity.
Qed.

Lemma delete_views_frame_witness :
  category_delete 9 7 sample_db = (Http404, sample_db).
Proof.
  apply (proj1 (delete_views_frame 9 7 sample_db)). reflexivity.
Defined.

Lemma employee_delete_marks_user_employee_witness :
  exists u', users (snd (employee_delete 9 1 sample_db)) !! 5%Z = Some u' /\
    u_is_active u' = false /\ u_is_employee u' = true /\ u_updated_at u' = 9%Z.
Proof.
  apply (proj1 (employee_delete_marks_user_employee 9 1 sample_db
           (mkRow true 0 [("employee_id", "E001")]) 5 eq_refl eq_refl)
           (mkUserRow true true 0 [("username", "ana")])).
  reflexivity.
Defined.

End ViewsFrameFacts.
